(** * Dynamic secret service: a shallow embedding and its properties

    The development embeds [dynamicSecretServiceFactory]
    (create / updateBySlug / deleteBySlug / list) as functions of a small
    state-and-exception monad.  The state is the Config Store together
    with the ordered trace of calls made to the collaborators, so that
    both the effect of an operation and the order of its calls can be
    stated. *)

From Stdlib Require Import ZArith NArith.
From stdpp Require Import base option strings gmap list.

Local Open Scope string_scope.

(** ** Errors *)

(** The class of a thrown exception.  The service itself constructs only
    [BadRequestError]; [ForbiddenError] comes from the permission check and
    [TypeError] from the JavaScript runtime.  The remaining classes are the
    ones a provider or the codec may throw. *)
Inductive ErrorClass :=
  | ForbiddenError
  | BadRequestError
  | TypeError
  | SyntaxError
  | NotFoundError
  | ConflictError
  | ValidationError
  | UnknownProviderError
  | DecryptionError.

Record Err := mkErr { errClass : ErrorClass; errMessage : string }.

#[global] Instance ErrorClass_eq_dec : EqDecision ErrorClass.
Proof. solve_decision. Defined.
#[global] Instance Err_eq_dec : EqDecision Err.
Proof. solve_decision. Defined.

(** ** Data *)

(** A JSON value as stored in a provider input; the merge of
    [updateBySlug] is shallow, so nested values are kept serialised. *)
Inductive JsValue :=
  | JsNull
  | JsBool (b : bool)
  | JsNum (n : Z)
  | JsStr (s : string)
  | JsNested (raw : string).

#[global] Instance JsValue_eq_dec : EqDecision JsValue.
Proof. solve_decision. Defined.

(** A plain JavaScript object used as a map from keys to values. *)
Abbreviation JsObject := (gmap string JsValue).

(** [{ ...a, ...b }]: the fields of [b] override those of [a]. *)
Definition spread (a b : JsObject) : JsObject := b ∪ a.

(** A row of the dynamic secret table. *)
Record TDynamicSecret := mkDynamicSecret {
  id : N;
  folderId : string;
  slug : string;
  type : string;
  version : Z;
  inputIV : string;
  inputTag : string;
  inputCiphertext : string;
  algorithm : string;
  keyEncoding : string;
  maxTTL : option string;
  defaultTTL : string;
  isDeleting : bool
}.

#[global] Instance TDynamicSecret_eq_dec : EqDecision TDynamicSecret.
Proof. solve_decision. Defined.

(** The record handed to [dynamicSecretDAL.create]: the row without its id;
    [isDeleting] is optional and takes the column default when absent. *)
Module Ins.
Record t := mk {
  type : string;
  version : Z;
  inputIV : string;
  inputTag : string;
  inputCiphertext : string;
  algorithm : string;
  keyEncoding : string;
  maxTTL : option string;
  defaultTTL : string;
  folderId : string;
  slug : string;
  isDeleting : option bool
}.
End Ins.

(** The partial record handed to [dynamicSecretDAL.updateById]: every
    column but the id, each one optional ([None] is an absent or
    [undefined] field, which the store leaves untouched). *)
Module Upd.
Record t := mk {
  folderId : option string;
  slug : option string;
  type : option string;
  version : option Z;
  inputIV : option string;
  inputTag : option string;
  inputCiphertext : option string;
  algorithm : option string;
  keyEncoding : option string;
  maxTTL : option string;
  defaultTTL : option string;
  isDeleting : option bool
}.

Definition empty : t :=
  mk None None None None None None None None None None None None.
End Upd.

(** The filter of [findOne]: [{ slug?, folderId }]. *)
Module Filter.
Record t := mk { slug : option string; folderId : string }.
End Filter.

(** The result of [infisicalSymmetricEncypt]. *)
Module Enc.
Record t := mk {
  ciphertext : string;
  iv : string;
  tag : string;
  algorithm : string;
  encoding : string
}.
End Enc.

Record Folder := mkFolder { folder_id : string }.

Record Lease := mkLease { lease_id : N; dynamicSecretId : N }.

(** ** Permissions *)

Inductive ProjectPermissionActions := Read | Create | Edit | Delete.

#[global] Instance ProjectPermissionActions_eq_dec :
  EqDecision ProjectPermissionActions.
Proof. solve_decision. Defined.

(** [subject(ProjectPermissionSub.Secrets, { environment, secretPath })]. *)
Record SecretsSubject := mkSubject { environment : string; secretPath : string }.

Record Permission := mkPermission {
  can : ProjectPermissionActions → SecretsSubject → bool
}.

(** ** Providers *)

Record TDynamicProviderFns := mkProvider {
  validateProviderInputs : JsObject → Err + JsObject
}.

(** ** The collaborators the factory receives

    The read-only collaborators of [TDynamicSecretServiceFactoryDep],
    together with the codec and the JSON built-ins the service calls.
    None of them is part of the service; they are parameters of every
    definition below. *)
Record Deps := mkDeps {
  getProjectPermission : string → string → string → string → string → Permission;
  findBySecretPath : string → string → string → option Folder;
  leaseFind : N → list Lease;
  dynamicSecretProviders : gmap string TDynamicProviderFns;
  infisicalSymmetricEncypt : string → Enc.t;
  infisicalSymmetricDecrypt : string → string → string → string → Err + string;
  JSON_stringify : JsObject → string;
  JSON_parse : string → Err + JsObject
}.

(** ** The world: store rows and the trace of calls *)

Inductive Event :=
  | CallGetProjectPermission (actor actorId projectId : string)
  | CallFindBySecretPath (projectId environment path : string)
  | CallFindOne (f : Filter.t)
  | CallFind (folderId : string)
  | CallCreate (r : Ins.t)
  | CallUpdateById (i : N) (u : Upd.t)
  | CallDeleteById (i : N)
  | CallLeaseFind (i : N)
  | CallPruneDynamicSecret (i : N)
  | CallValidateProviderInputs (ty : string) (input : JsObject)
  | CallEncrypt (plaintext : string)
  | CallDecrypt (ciphertext : string).

Record World := mkWorld {
  rows : list TDynamicSecret;
  nextId : N;
  trace : list Event
}.

(** ** The monad of service code: state, then an exception or a value *)

Definition M (A : Type) : Type := World → World * (Err + A).

#[global] Instance M_ret : MRet M := λ A a w, (w, inr a).
#[global] Instance M_bind : MBind M := λ A B f m w,
  match m w with
  | (w', inr a) => f a w'
  | (w', inl e) => (w', inl e)
  end.

Definition throw {A} (e : Err) : M A := λ w, (w, inl e).

Definition emit (ev : Event) : M unit :=
  λ w, (mkWorld (rows w) (nextId w) (trace w ++ [ev]), inr tt).

(** Lifts the result of a collaborator that either throws or returns. *)
Definition liftE {A} (r : Err + A) : M A := λ w, (w, r).

Definition throwIf (b : bool) (e : Err) : M unit :=
  if b then throw e else mret tt.

Definition gets {A} (f : World → A) : M A := λ w, (w, inr (f w)).

(** A primitive step given directly as a state transformer. *)
Definition step {A} (f : World → World * (Err + A)) : M A := f.

(** ** The Config Store *)

Definition notFoundRow : Err := mkErr NotFoundError "Row not found".
Definition uniqueViolation : Err :=
  mkErr ConflictError "Unique slug per folder violated".

(** Modelled from the spec: [dynamicSecretDAL] (the Config Store of
    section 4.3) is not among the sources.  This is the in-memory
    reference store the spec asks for: rows in insertion order,
    [findOne]/[find] by the fields of the filter only, [create] giving a
    fresh id and the column default [isDeleting = false] and refusing a
    second non-deleted row with the same slug in a folder, [updateById]
    writing exactly the fields present in the partial record,
    [deleteById] removing the row and returning it. *)
Module dynamicSecretDAL.

Definition matches (f : Filter.t) (r : TDynamicSecret) : bool :=
  bool_decide (folderId r = Filter.folderId f)
  && match Filter.slug f with
     | Some s => bool_decide (slug r = s)
     | None => true
     end.

Definition hasId (i : N) (r : TDynamicSecret) : bool := bool_decide (id r = i).

Definition insertRow (i : N) (r : Ins.t) : TDynamicSecret :=
  {| id := i;
     folderId := Ins.folderId r;
     slug := Ins.slug r;
     type := Ins.type r;
     version := Ins.version r;
     inputIV := Ins.inputIV r;
     inputTag := Ins.inputTag r;
     inputCiphertext := Ins.inputCiphertext r;
     algorithm := Ins.algorithm r;
     keyEncoding := Ins.keyEncoding r;
     maxTTL := Ins.maxTTL r;
     defaultTTL := Ins.defaultTTL r;
     isDeleting := default false (Ins.isDeleting r) |}.

Definition applyUpdate (u : Upd.t) (r : TDynamicSecret) : TDynamicSecret :=
  {| id := id r;
     folderId := default (folderId r) (Upd.folderId u);
     slug := default (slug r) (Upd.slug u);
     type := default (type r) (Upd.type u);
     version := default (version r) (Upd.version u);
     inputIV := default (inputIV r) (Upd.inputIV u);
     inputTag := default (inputTag r) (Upd.inputTag u);
     inputCiphertext := default (inputCiphertext r) (Upd.inputCiphertext u);
     algorithm := default (algorithm r) (Upd.algorithm u);
     keyEncoding := default (keyEncoding r) (Upd.keyEncoding u);
     maxTTL := match Upd.maxTTL u with Some t => Some t | None => maxTTL r end;
     defaultTTL := default (defaultTTL r) (Upd.defaultTTL u);
     isDeleting := default (isDeleting r) (Upd.isDeleting u) |}.

Definition updateRows (i : N) (u : Upd.t) (l : list TDynamicSecret) :=
  (λ r, if hasId i r then applyUpdate u r else r) <$> l.

Definition deleteRows (i : N) (l : list TDynamicSecret) :=
  filter (λ r, id r ≠ i) l.

Definition clashes (r : Ins.t) (x : TDynamicSecret) : bool :=
  bool_decide (folderId x = Ins.folderId r)
  && bool_decide (slug x = Ins.slug r)
  && negb (isDeleting x).

(** Modelled from the spec: [findOne(filter: {slug?, folderId}) -> Config | nil],
    the first row that agrees with the filter on the fields it carries. *)
Definition findOne (f : Filter.t) : M (option TDynamicSecret) :=
  emit (CallFindOne f);;
  gets (λ w, List.find (matches f) (rows w)).

(** Modelled from the spec: [find(filter: {folderId}) -> sequence of Config],
    every row of the folder, those flagged as deleting included. *)
Definition find (fid : string) : M (list TDynamicSecret) :=
  emit (CallFind fid);;
  gets (λ w, List.filter (matches (Filter.mk None fid)) (rows w)).

(** Modelled from the spec: [create(record) -> Config], failing with
    [ConflictError] when the record would be a second non-deleted row with
    its slug in its folder; the new row gets a fresh id and, when the record
    has no [isDeleting], the default [false]. *)
Definition create (r : Ins.t) : M TDynamicSecret :=
  emit (CallCreate r);;
  step (λ w,
    if existsb (clashes r) (rows w)
    then (w, inl uniqueViolation)
    else let row := insertRow (nextId w) r in
         (mkWorld (rows w ++ [row]) (N.succ (nextId w)) (trace w), inr row)).

(** Modelled from the spec: [updateById(id, partial) -> Config], failing
    with [NotFoundError] when no row has the id; the fields present in the
    partial record are written, the others are kept. *)
Definition updateById (i : N) (u : Upd.t) : M TDynamicSecret :=
  emit (CallUpdateById i u);;
  step (λ w,
    match List.find (hasId i) (rows w) with
    | None => (w, inl notFoundRow)
    | Some r =>
        (mkWorld (updateRows i u (rows w)) (nextId w) (trace w),
         inr (applyUpdate u r))
    end).

(** Modelled from the spec: [deleteById(id) -> Config], which removes the
    row and returns it; the spec is silent on an absent id, treated here
    like [updateById] does. *)
Definition deleteById (i : N) : M TDynamicSecret :=
  emit (CallDeleteById i);;
  step (λ w,
    match List.find (hasId i) (rows w) with
    | None => (w, inl notFoundRow)
    | Some r =>
        (mkWorld (deleteRows i (rows w)) (nextId w) (trace w), inr r)
    end).

End dynamicSecretDAL.

(** ** The request records of the four operations *)

Module ProviderSpec.
Record t := mk { type : string; inputs : JsObject }.
End ProviderSpec.

Module CreateDTO.
Record t := mk {
  path : string;
  actor : string;
  slug : string;
  actorId : string;
  maxTTL : option string;
  provider : ProviderSpec.t;
  environment : string;
  projectId : string;
  actorOrgId : string;
  defaultTTL : string;
  actorAuthMethod : string
}.
End CreateDTO.

Module UpdateDTO.
Record t := mk {
  slug : string;
  maxTTL : option string;
  defaultTTL : option string;
  inputs : option JsObject;
  environment : string;
  projectId : string;
  path : string;
  actor : string;
  actorId : string;
  newSlug : option string;
  actorOrgId : string;
  actorAuthMethod : string
}.
End UpdateDTO.

Module DeleteDTO.
Record t := mk {
  actorAuthMethod : string;
  actorOrgId : string;
  actorId : string;
  actor : string;
  projectId : string;
  slug : string;
  path : string;
  environment : string
}.
End DeleteDTO.

Module ListDTO.
Record t := mk {
  actorAuthMethod : string;
  actorOrgId : string;
  actorId : string;
  actor : string;
  projectId : string;
  path : string;
  environment : string
}.
End ListDTO.

(** ** The errors the service raises *)

Definition actionName (a : ProjectPermissionActions) : string :=
  match a with
  | Read => "read" | Create => "create" | Edit => "edit" | Delete => "delete"
  end.

(** The exception of [ForbiddenError.from(permission).throwUnlessCan]
    (the library's message, without its quotation marks). *)
Definition forbidden (a : ProjectPermissionActions) : Err :=
  mkErr ForbiddenError ("Cannot execute " ++ actionName a ++ " on secrets").

Definition folderNotFound : Err := mkErr BadRequestError "Folder not found".
Definition dynamicSecretNotFound : Err :=
  mkErr BadRequestError "Dynamic secret not found".
Definition alreadyExists : Err :=
  mkErr BadRequestError "Provided dynamic secret already exist under the folder".

(** What the runtime throws for [undefined.validateProviderInputs]. *)
Definition undefinedProvider : Err :=
  mkErr TypeError
    "Cannot read properties of undefined (reading 'validateProviderInputs')".

(** JavaScript truthiness of an optional string: [undefined] and the empty
    string are falsy. *)
Definition truthy (s : option string) : bool :=
  match s with
  | Some s => negb (bool_decide (s = EmptyString))
  | None => false
  end.

Definition throwUnlessCan (p : Permission) (a : ProjectPermissionActions)
    (s : SecretsSubject) : M unit :=
  throwIf (negb (can p a s)) (forbidden a).

(** ** The service *)

Module dynamicSecretService.
Section Factory.
Context (deps : Deps).

(** The calls to the read-only collaborators, each one recorded. *)

Definition permissionService_getProjectPermission
    (actor actorId projectId actorAuthMethod actorOrgId : string) : M Permission :=
  emit (CallGetProjectPermission actor actorId projectId);;
  mret (getProjectPermission deps actor actorId projectId actorAuthMethod actorOrgId).

Definition folderDAL_findBySecretPath
    (projectId environment path : string) : M (option Folder) :=
  emit (CallFindBySecretPath projectId environment path);;
  mret (findBySecretPath deps projectId environment path).

Definition dynamicSecretLeaseDAL_find (i : N) : M (list Lease) :=
  emit (CallLeaseFind i);;
  mret (leaseFind deps i).

Definition dynamicSecretQueueService_pruneDynamicSecret (i : N) : M unit :=
  emit (CallPruneDynamicSecret i).

Definition encrypt (plaintext : string) : M Enc.t :=
  emit (CallEncrypt plaintext);;
  mret (infisicalSymmetricEncypt deps plaintext).

Definition decrypt (keyEncoding ciphertext tag iv : string) : M string :=
  emit (CallDecrypt ciphertext);;
  liftE (infisicalSymmetricDecrypt deps keyEncoding ciphertext tag iv).

(** [selectedProvider.validateProviderInputs(input)], where
    [selectedProvider] is the result of indexing the registry and so may
    be [undefined]; the call on [undefined] is a [TypeError] of the runtime
    (for a key that only [Object.prototype] knows, the runtime's
    [TypeError] has another message). *)
Definition callValidateProviderInputs (ty : string)
    (selectedProvider : option TDynamicProviderFns) (input : JsObject) : M JsObject :=
  match selectedProvider with
  | None => throw undefinedProvider
  | Some p =>
      emit (CallValidateProviderInputs ty input);;
      liftE (validateProviderInputs p input)
  end.

Definition create (dto : CreateDTO.t) : M TDynamicSecret :=
  permission ← permissionService_getProjectPermission
    (CreateDTO.actor dto) (CreateDTO.actorId dto) (CreateDTO.projectId dto)
    (CreateDTO.actorAuthMethod dto) (CreateDTO.actorOrgId dto);
  throwUnlessCan permission Create
    (mkSubject (CreateDTO.environment dto) (CreateDTO.path dto));;
  folder ← folderDAL_findBySecretPath
    (CreateDTO.projectId dto) (CreateDTO.environment dto) (CreateDTO.path dto);
  match folder with
  | None => throw folderNotFound
  | Some folder =>
    existingDynamicSecret ← dynamicSecretDAL.findOne
      (Filter.mk (Some (CreateDTO.slug dto)) (folder_id folder));
    throwIf (bool_decide (is_Some existingDynamicSecret)) alreadyExists;;
    let selectedProvider :=
      dynamicSecretProviders deps !! ProviderSpec.type (CreateDTO.provider dto) in
    inputs ← callValidateProviderInputs
      (ProviderSpec.type (CreateDTO.provider dto)) selectedProvider
      (ProviderSpec.inputs (CreateDTO.provider dto));
    encryptedInput ← encrypt (JSON_stringify deps inputs);
    dynamicSecretDAL.create
      {| Ins.type := ProviderSpec.type (CreateDTO.provider dto);
         Ins.version := 1;
         Ins.inputIV := Enc.iv encryptedInput;
         Ins.inputTag := Enc.tag encryptedInput;
         Ins.inputCiphertext := Enc.ciphertext encryptedInput;
         Ins.algorithm := Enc.algorithm encryptedInput;
         Ins.keyEncoding := Enc.encoding encryptedInput;
         Ins.maxTTL := CreateDTO.maxTTL dto;
         Ins.defaultTTL := CreateDTO.defaultTTL dto;
         Ins.folderId := folder_id folder;
         Ins.slug := CreateDTO.slug dto;
         Ins.isDeleting := None |}
  end.

Definition updateBySlug (dto : UpdateDTO.t) : M TDynamicSecret :=
  permission ← permissionService_getProjectPermission
    (UpdateDTO.actor dto) (UpdateDTO.actorId dto) (UpdateDTO.projectId dto)
    (UpdateDTO.actorAuthMethod dto) (UpdateDTO.actorOrgId dto);
  throwUnlessCan permission Edit
    (mkSubject (UpdateDTO.environment dto) (UpdateDTO.path dto));;
  folder ← folderDAL_findBySecretPath
    (UpdateDTO.projectId dto) (UpdateDTO.environment dto) (UpdateDTO.path dto);
  match folder with
  | None => throw folderNotFound
  | Some folder =>
    dynamicSecretCfg ← dynamicSecretDAL.findOne
      (Filter.mk (Some (UpdateDTO.slug dto)) (folder_id folder));
    match dynamicSecretCfg with
    | None => throw dynamicSecretNotFound
    | Some dynamicSecretCfg =>
      (if truthy (UpdateDTO.newSlug dto) then
         existingDynamicSecret ← dynamicSecretDAL.findOne
           (Filter.mk (UpdateDTO.newSlug dto) (folder_id folder));
         throwIf (bool_decide (is_Some existingDynamicSecret)) alreadyExists
       else mret tt);;
      let selectedProvider :=
        dynamicSecretProviders deps !! type dynamicSecretCfg in
      plaintext ← decrypt (keyEncoding dynamicSecretCfg)
        (inputCiphertext dynamicSecretCfg) (inputTag dynamicSecretCfg)
        (inputIV dynamicSecretCfg);
      decryptedStoredInput ← liftE (JSON_parse deps plaintext);
      let newInput := spread decryptedStoredInput (default ∅ (UpdateDTO.inputs dto)) in
      updatedInput ← callValidateProviderInputs
        (type dynamicSecretCfg) selectedProvider newInput;
      encryptedInput ← encrypt (JSON_stringify deps updatedInput);
      dynamicSecretDAL.updateById (id dynamicSecretCfg)
        {| Upd.folderId := None;
           Upd.slug := Some (default (UpdateDTO.slug dto) (UpdateDTO.newSlug dto));
           Upd.type := None;
           Upd.version := None;
           Upd.inputIV := Some (Enc.iv encryptedInput);
           Upd.inputTag := Some (Enc.tag encryptedInput);
           Upd.inputCiphertext := Some (Enc.ciphertext encryptedInput);
           Upd.algorithm := Some (Enc.algorithm encryptedInput);
           Upd.keyEncoding := Some (Enc.encoding encryptedInput);
           Upd.maxTTL := UpdateDTO.maxTTL dto;
           Upd.defaultTTL := UpdateDTO.defaultTTL dto;
           Upd.isDeleting := None |}
    end
  end.

Definition deleteBySlug (dto : DeleteDTO.t) : M TDynamicSecret :=
  permission ← permissionService_getProjectPermission
    (DeleteDTO.actor dto) (DeleteDTO.actorId dto) (DeleteDTO.projectId dto)
    (DeleteDTO.actorAuthMethod dto) (DeleteDTO.actorOrgId dto);
  throwUnlessCan permission Edit
    (mkSubject (DeleteDTO.environment dto) (DeleteDTO.path dto));;
  folder ← folderDAL_findBySecretPath
    (DeleteDTO.projectId dto) (DeleteDTO.environment dto) (DeleteDTO.path dto);
  match folder with
  | None => throw folderNotFound
  | Some folder =>
    dynamicSecretCfg ← dynamicSecretDAL.findOne
      (Filter.mk (Some (DeleteDTO.slug dto)) (folder_id folder));
    match dynamicSecretCfg with
    | None => throw dynamicSecretNotFound
    | Some dynamicSecretCfg =>
      leases ← dynamicSecretLeaseDAL_find (id dynamicSecretCfg);
      if negb (bool_decide (length leases = 0)) then
        updatedDynamicSecretCfg ← dynamicSecretDAL.updateById (id dynamicSecretCfg)
          {| Upd.folderId := None; Upd.slug := None; Upd.type := None;
             Upd.version := None; Upd.inputIV := None; Upd.inputTag := None;
             Upd.inputCiphertext := None; Upd.algorithm := None;
             Upd.keyEncoding := None; Upd.maxTTL := None;
             Upd.defaultTTL := None; Upd.isDeleting := Some true |};
        dynamicSecretQueueService_pruneDynamicSecret (id updatedDynamicSecretCfg);;
        mret updatedDynamicSecretCfg
      else
        deletedDynamicSecretCfg ← dynamicSecretDAL.deleteById (id dynamicSecretCfg);
        mret deletedDynamicSecretCfg
    end
  end.

Definition list (dto : ListDTO.t) : M (list TDynamicSecret) :=
  permission ← permissionService_getProjectPermission
    (ListDTO.actor dto) (ListDTO.actorId dto) (ListDTO.projectId dto)
    (ListDTO.actorAuthMethod dto) (ListDTO.actorOrgId dto);
  throwUnlessCan permission Edit
    (mkSubject (ListDTO.environment dto) (ListDTO.path dto));;
  folder ← folderDAL_findBySecretPath
    (ListDTO.projectId dto) (ListDTO.environment dto) (ListDTO.path dto);
  match folder with
  | None => throw folderNotFound
  | Some folder =>
    dynamicSecretCfg ← dynamicSecretDAL.find (folder_id folder);
    mret dynamicSecretCfg
  end.

End Factory.
End dynamicSecretService.

(** ** A concrete deployment

    One folder, one provider and a toy codec, used to run the service on
    explicit inputs. *)
Module Fixture.

Definition hostX : JsObject := {[ "host" := JsStr "x"; "port" := JsNum 5432 ]}.
Definition hostX' : JsObject := {[ "host" := JsStr "x"; "port" := JsNum 5433 ]}.
Definition portOnly : JsObject := {[ "port" := JsNum 5433 ]}.

(** The serialisations that occur in the examples. *)
Definition documents : list (string * JsObject) :=
  [ ("{host:x,port:5432}", hostX);
    ("{host:x,port:5433}", hostX');
    ("{port:5433}", portOnly);
    ("{}", ∅) ].

Definition stringify (o : JsObject) : string :=
  match List.find (λ d, bool_decide (d.2 = o)) documents with
  | Some d => d.1
  | None => "{}"
  end.

Definition parse (s : string) : Err + JsObject :=
  match List.find (λ d, bool_decide (d.1 = s)) documents with
  | Some d => inr d.2
  | None => inl (mkErr SyntaxError "Unexpected token")
  end.

(** A provider that insists on a [host] field. *)
Definition postgres : TDynamicProviderFns :=
  mkProvider (λ o,
    if bool_decide (is_Some (o !! "host")) then inr o
    else inl (mkErr ValidationError "host is required")).

(** The toy codec: the ciphertext is the plaintext behind a marker, and
    decryption checks the tag. *)
Definition toyEncrypt (plaintext : string) : Enc.t :=
  Enc.mk ("enc:" ++ plaintext) "iv0" "tag0" "aes-256-gcm" "utf8".

Definition toyDecrypt (keyEncoding ciphertext tag iv : string) : Err + string :=
  if bool_decide (tag = "tag0")
  then inr (String.substring 4 (String.length ciphertext - 4) ciphertext)
  else inl (mkErr DecryptionError "Unsupported state or unable to authenticate data").

(** alice holds every capability, everybody else none; the only folder is
    [/f1] of environment [dev] in project [p1]; the config with id 1 has
    one outstanding lease. *)
Definition deps : Deps :=
  {| getProjectPermission := λ actor actorId projectId actorAuthMethod actorOrgId,
       mkPermission (λ _ _, bool_decide (actorId = "alice"));
     findBySecretPath := λ projectId environment path,
       if bool_decide (projectId = "p1") && bool_decide (environment = "dev")
          && bool_decide (path = "/f1")
       then Some (mkFolder "folder-1") else None;
     leaseFind := λ i, if bool_decide (i = 1%N) then [mkLease 7 1] else [];
     dynamicSecretProviders := {[ "postgres" := postgres ]};
     infisicalSymmetricEncypt := toyEncrypt;
     infisicalSymmetricDecrypt := toyDecrypt;
     JSON_stringify := stringify;
     JSON_parse := parse |}.

Definition payload : Enc.t := toyEncrypt (stringify hostX).

Definition row (i : N) (s : string) (deleting : bool) : TDynamicSecret :=
  {| id := i; folderId := "folder-1"; slug := s; type := "postgres";
     version := 1;
     inputIV := Enc.iv payload; inputTag := Enc.tag payload;
     inputCiphertext := Enc.ciphertext payload;
     algorithm := Enc.algorithm payload; keyEncoding := Enc.encoding payload;
     maxTTL := Some "7200"; defaultTTL := "3600"; isDeleting := deleting |}.

Definition emptyWorld : World := mkWorld [] 0 [].

(** [db0] has no lease, [db1] has one, [old] is flagged as deleting. *)
Definition world3 : World :=
  mkWorld [row 0 "db0" false; row 1 "db1" false; row 2 "old" true] 3 [].

Definition createDto (who path s ty : string) (inputs : JsObject) : CreateDTO.t :=
  {| CreateDTO.path := path; CreateDTO.actor := "user"; CreateDTO.slug := s;
     CreateDTO.actorId := who; CreateDTO.maxTTL := Some "7200";
     CreateDTO.provider := ProviderSpec.mk ty inputs;
     CreateDTO.environment := "dev"; CreateDTO.projectId := "p1";
     CreateDTO.actorOrgId := "org"; CreateDTO.defaultTTL := "3600";
     CreateDTO.actorAuthMethod := "email" |}.

Definition updateDto (who path s : string) (newSlug : option string)
    (inputs : option JsObject) : UpdateDTO.t :=
  {| UpdateDTO.slug := s; UpdateDTO.maxTTL := None; UpdateDTO.defaultTTL := None;
     UpdateDTO.inputs := inputs; UpdateDTO.environment := "dev";
     UpdateDTO.projectId := "p1"; UpdateDTO.path := path;
     UpdateDTO.actor := "user"; UpdateDTO.actorId := who;
     UpdateDTO.newSlug := newSlug; UpdateDTO.actorOrgId := "org";
     UpdateDTO.actorAuthMethod := "email" |}.

Definition deleteDto (who path s : string) : DeleteDTO.t :=
  {| DeleteDTO.actorAuthMethod := "email"; DeleteDTO.actorOrgId := "org";
     DeleteDTO.actorId := who; DeleteDTO.actor := "user";
     DeleteDTO.projectId := "p1"; DeleteDTO.slug := s;
     DeleteDTO.path := path; DeleteDTO.environment := "dev" |}.

Definition listDto (who path : string) : ListDTO.t :=
  {| ListDTO.actorAuthMethod := "email"; ListDTO.actorOrgId := "org";
     ListDTO.actorId := who; ListDTO.actor := "user";
     ListDTO.projectId := "p1"; ListDTO.path := path;
     ListDTO.environment := "dev" |}.

End Fixture.

(** ** Vocabulary of the statements *)

(** Ids are a primary key, and the id counter is ahead of every row. *)
Definition store_wf (w : World) : Prop :=
  NoDup (id <$> rows w) ∧ Forall (λ r, (id r < nextId w)%N) (rows w).

#[global] Instance store_wf_dec (w : World) : Decision (store_wf w).
Proof. unfold store_wf. apply _. Defined.

(** The columns [updateBySlug] must never touch. *)
Definition identity (r : TDynamicSecret) : N * string * string * Z :=
  (id r, folderId r, type r, version r).

(** The world after further recorded calls, the store untouched. *)
Definition after (w : World) (evs : list Event) : World :=
  mkWorld (rows w) (nextId w) (trace w ++ evs).

(** ** The part of a request shared by the four operations *)

(** Who calls, and on which project, environment and path. *)
Record Caller := mkCaller {
  c_actor : string;
  c_actorId : string;
  c_projectId : string;
  c_actorAuthMethod : string;
  c_actorOrgId : string;
  c_environment : string;
  c_path : string
}.

Definition createCaller (dto : CreateDTO.t) : Caller :=
  mkCaller (CreateDTO.actor dto) (CreateDTO.actorId dto) (CreateDTO.projectId dto)
    (CreateDTO.actorAuthMethod dto) (CreateDTO.actorOrgId dto)
    (CreateDTO.environment dto) (CreateDTO.path dto).

Definition updateCaller (dto : UpdateDTO.t) : Caller :=
  mkCaller (UpdateDTO.actor dto) (UpdateDTO.actorId dto) (UpdateDTO.projectId dto)
    (UpdateDTO.actorAuthMethod dto) (UpdateDTO.actorOrgId dto)
    (UpdateDTO.environment dto) (UpdateDTO.path dto).

Definition deleteCaller (dto : DeleteDTO.t) : Caller :=
  mkCaller (DeleteDTO.actor dto) (DeleteDTO.actorId dto) (DeleteDTO.projectId dto)
    (DeleteDTO.actorAuthMethod dto) (DeleteDTO.actorOrgId dto)
    (DeleteDTO.environment dto) (DeleteDTO.path dto).

Definition listCaller (dto : ListDTO.t) : Caller :=
  mkCaller (ListDTO.actor dto) (ListDTO.actorId dto) (ListDTO.projectId dto)
    (ListDTO.actorAuthMethod dto) (ListDTO.actorOrgId dto)
    (ListDTO.environment dto) (ListDTO.path dto).

(** Whether the permission service grants the action on the Secrets
    subject of the caller's environment and path. *)
Definition allowed (d : Deps) (a : ProjectPermissionActions) (c : Caller) : bool :=
  can (getProjectPermission d (c_actor c) (c_actorId c) (c_projectId c)
         (c_actorAuthMethod c) (c_actorOrgId c))
      a (mkSubject (c_environment c) (c_path c)).

(** The folder the resolver gives for the caller's path, if any. *)
Definition resolved (d : Deps) (c : Caller) : option Folder :=
  findBySecretPath d (c_projectId c) (c_environment c) (c_path c).

Definition permissionCall (c : Caller) : Event :=
  CallGetProjectPermission (c_actor c) (c_actorId c) (c_projectId c).

Definition folderCall (c : Caller) : Event :=
  CallFindBySecretPath (c_projectId c) (c_environment c) (c_path c).

(** The rows of a folder that carry a given slug, flagged or not. *)
Definition usesSlug (fid s : string) (r : TDynamicSecret) : Prop :=
  folderId r = fid ∧ slug r = s.

(** The config the store returns for [{ slug, folderId }]: the first row
    of that folder with that slug. *)
Definition configOf (w : World) (fid s : string) : option TDynamicSecret :=
  List.find (dynamicSecretDAL.matches (Filter.mk (Some s) fid)) (rows w).

(** The partial record of the delete path: [{ isDeleting: true }]. *)
Definition flagDeleting : Upd.t :=
  {| Upd.folderId := None; Upd.slug := None; Upd.type := None;
     Upd.version := None; Upd.inputIV := None; Upd.inputTag := None;
     Upd.inputCiphertext := None; Upd.algorithm := None;
     Upd.keyEncoding := None; Upd.maxTTL := None;
     Upd.defaultTTL := None; Upd.isDeleting := Some true |}.

(** A row with its lifecycle flag set. *)
Definition flagged (r : TDynamicSecret) : TDynamicSecret :=
  {| id := id r; folderId := folderId r; slug := slug r; type := type r;
     version := version r; inputIV := inputIV r; inputTag := inputTag r;
     inputCiphertext := inputCiphertext r; algorithm := algorithm r;
     keyEncoding := keyEncoding r; maxTTL := maxTTL r;
     defaultTTL := defaultTTL r; isDeleting := true |}.

(** The partial record [updateBySlug] writes for a request and a freshly
    encrypted input. *)
Definition updateRecord (dto : UpdateDTO.t) (enc : Enc.t) : Upd.t :=
  {| Upd.folderId := None;
     Upd.slug := Some (default (UpdateDTO.slug dto) (UpdateDTO.newSlug dto));
     Upd.type := None;
     Upd.version := None;
     Upd.inputIV := Some (Enc.iv enc);
     Upd.inputTag := Some (Enc.tag enc);
     Upd.inputCiphertext := Some (Enc.ciphertext enc);
     Upd.algorithm := Some (Enc.algorithm enc);
     Upd.keyEncoding := Some (Enc.encoding enc);
     Upd.maxTTL := UpdateDTO.maxTTL dto;
     Upd.defaultTTL := UpdateDTO.defaultTTL dto;
     Upd.isDeleting := None |}.

(** The row [updateBySlug] leaves behind: the old row with the new payload,
    the resolved slug, and the TTLs that the request carries. *)
Definition updatedRow (dto : UpdateDTO.t) (enc : Enc.t) (r : TDynamicSecret) : TDynamicSecret :=
  {| id := id r;
     folderId := folderId r;
     slug := match UpdateDTO.newSlug dto with Some s => s | None => UpdateDTO.slug dto end;
     type := type r;
     version := version r;
     inputIV := Enc.iv enc;
     inputTag := Enc.tag enc;
     inputCiphertext := Enc.ciphertext enc;
     algorithm := Enc.algorithm enc;
     keyEncoding := Enc.encoding enc;
     maxTTL := match UpdateDTO.maxTTL dto with Some t => Some t | None => maxTTL r end;
     defaultTTL := match UpdateDTO.defaultTTL dto with Some t => t | None => defaultTTL r end;
     isDeleting := isDeleting r |}.

(** The store lookup of the rename check, made only for a truthy [newSlug]. *)
Definition renameCheck (dto : UpdateDTO.t) (fid : string) : list Event :=
  if truthy (UpdateDTO.newSlug dto)
  then [CallFindOne (Filter.mk (UpdateDTO.newSlug dto) fid)]
  else [].

(** No row of the folder stands in the way of the requested rename. *)
Definition renameFree (w : World) (dto : UpdateDTO.t) (fid : string) : Prop :=
  ∀ s, UpdateDTO.newSlug dto = Some s → s ≠ EmptyString →
       ∀ r, r ∈ rows w → ¬ usesSlug fid s r.

(** The record [create] hands to the store for a request, a folder and a
    freshly encrypted input. *)
Definition createRecord (dto : CreateDTO.t) (fid : string) (enc : Enc.t) : Ins.t :=
  {| Ins.type := ProviderSpec.type (CreateDTO.provider dto);
     Ins.version := 1;
     Ins.inputIV := Enc.iv enc;
     Ins.inputTag := Enc.tag enc;
     Ins.inputCiphertext := Enc.ciphertext enc;
     Ins.algorithm := Enc.algorithm enc;
     Ins.keyEncoding := Enc.encoding enc;
     Ins.maxTTL := CreateDTO.maxTTL dto;
     Ins.defaultTTL := CreateDTO.defaultTTL dto;
     Ins.folderId := fid;
     Ins.slug := CreateDTO.slug dto;
     Ins.isDeleting := None |}.

(** The row a successful [create] persists and returns. *)
Definition createdRow (i : N) (dto : CreateDTO.t) (fid : string) (enc : Enc.t) : TDynamicSecret :=
  {| id := i;
     folderId := fid;
     slug := CreateDTO.slug dto;
     type := ProviderSpec.type (CreateDTO.provider dto);
     version := 1;
     inputIV := Enc.iv enc;
     inputTag := Enc.tag enc;
     inputCiphertext := Enc.ciphertext enc;
     algorithm := Enc.algorithm enc;
     keyEncoding := Enc.encoding enc;
     maxTTL := CreateDTO.maxTTL dto;
     defaultTTL := CreateDTO.defaultTTL dto;
     isDeleting := false |}.

(** The calls of [create] up to and including the slug pre-check. *)
Definition createPrecheck (dto : CreateDTO.t) (fid : string) : list Event :=
  [permissionCall (createCaller dto); folderCall (createCaller dto);
   CallFindOne (Filter.mk (Some (CreateDTO.slug dto)) fid)].

(** The only store write [updateBySlug] can issue. *)
Definition writesPayloadTtlSlugOnly (ev : Event) : Prop :=
  match ev with
  | CallUpdateById _ u =>
      Upd.folderId u = None ∧ Upd.type u = None ∧ Upd.version u = None
      ∧ Upd.isDeleting u = None
      ∧ is_Some (Upd.inputIV u) ∧ is_Some (Upd.inputTag u)
      ∧ is_Some (Upd.inputCiphertext u) ∧ is_Some (Upd.algorithm u)
      ∧ is_Some (Upd.keyEncoding u) ∧ is_Some (Upd.slug u)
  | CallCreate _ | CallDeleteById _ => False
  | _ => True
  end.

(** The key under which a folder addresses a row. *)
Definition slugKey (r : TDynamicSecret) : string * string := (folderId r, slug r).

(** No two rows of the store share folder and slug. *)
Definition slugs_unique (w : World) : Prop := NoDup (slugKey <$> rows w).

#[global] Instance slugs_unique_dec (w : World) : Decision (slugs_unique w).
Proof. unfold slugs_unique. apply _. Defined.

(** The calls of [updateBySlug] up to and including decryption, for a
    config found in the folder. *)
Definition updatePrefix (dto : UpdateDTO.t) (fid : string) (cfg : TDynamicSecret) : list Event :=
  ([permissionCall (updateCaller dto); folderCall (updateCaller dto);
    CallFindOne (Filter.mk (Some (UpdateDTO.slug dto)) fid)]
   ++ renameCheck dto fid
   ++ [CallDecrypt (inputCiphertext cfg)])%list.

(** The calls of [deleteBySlug] up to and including the lease lookup. *)
Definition deletePrefix (dto : DeleteDTO.t) (fid : string) (cfg : TDynamicSecret) : list Event :=
  [permissionCall (deleteCaller dto); folderCall (deleteCaller dto);
   CallFindOne (Filter.mk (Some (DeleteDTO.slug dto)) fid);
   CallLeaseFind (id cfg)].

(** The calls a [deleteBySlug] may make: lookups, a flag update followed by
    a prune for a config with leases, a hard delete for one without. *)
Definition deleteCallAllowed (d : Deps) (ev : Event) : Prop :=
  match ev with
  | CallGetProjectPermission _ _ _ | CallFindBySecretPath _ _ _
  | CallFindOne _ | CallLeaseFind _ => True
  | CallUpdateById i u => u = flagDeleting ∧ leaseFind d i ≠ []
  | CallPruneDynamicSecret i => leaseFind d i ≠ []
  | CallDeleteById i => leaseFind d i = []
  | _ => False
  end.

(** The calls a [list] may make: lookups only. *)
Definition readOnlyCall (ev : Event) : Prop :=
  match ev with
  | CallGetProjectPermission _ _ _ | CallFindBySecretPath _ _ _ | CallFind _ => True
  | _ => False
  end.

(** What [create] does once the actor is authorized, the folder is
    resolved, the slug is free and the registry has given provider [p]. *)
Definition createOutcome (d : Deps) (dto : CreateDTO.t) (w : World) (fid : string)
    (p : TDynamicProviderFns) : World * (Err + TDynamicSecret) :=
  let validateCall :=
    CallValidateProviderInputs (ProviderSpec.type (CreateDTO.provider dto))
      (ProviderSpec.inputs (CreateDTO.provider dto)) in
  match validateProviderInputs p (ProviderSpec.inputs (CreateDTO.provider dto)) with
  | inl e => (after w (createPrecheck dto fid ++ [validateCall]), inl e)
  | inr validated =>
      let enc := infisicalSymmetricEncypt d (JSON_stringify d validated) in
      (mkWorld (rows w ++ [createdRow (nextId w) dto fid enc]) (N.succ (nextId w))
         (trace w ++ createPrecheck dto fid
            ++ [validateCall; CallEncrypt (JSON_stringify d validated);
                CallCreate (createRecord dto fid enc)]),
       inr (createdRow (nextId w) dto fid enc))
  end.

(** What [updateBySlug] does once the actor is authorized, the folder is
    resolved, the config is found and the rename check has passed. *)
Definition updateOutcome (d : Deps) (dto : UpdateDTO.t) (w : World) (fid : string)
    (cfg : TDynamicSecret) : World * (Err + TDynamicSecret) :=
  match infisicalSymmetricDecrypt d (keyEncoding cfg) (inputCiphertext cfg)
          (inputTag cfg) (inputIV cfg) with
  | inl e => (after w (updatePrefix dto fid cfg), inl e)
  | inr plaintext =>
    match JSON_parse d plaintext with
    | inl e => (after w (updatePrefix dto fid cfg), inl e)
    | inr stored =>
      let merged := spread stored (default ∅ (UpdateDTO.inputs dto)) in
      match dynamicSecretProviders d !! type cfg with
      | None => (after w (updatePrefix dto fid cfg), inl undefinedProvider)
      | Some p =>
        match validateProviderInputs p merged with
        | inl e =>
            (after w (updatePrefix dto fid cfg
                      ++ [CallValidateProviderInputs (type cfg) merged]), inl e)
        | inr updatedInput =>
            let enc := infisicalSymmetricEncypt d (JSON_stringify d updatedInput) in
            (mkWorld
               (dynamicSecretDAL.updateRows (id cfg) (updateRecord dto enc) (rows w))
               (nextId w)
               (trace w ++ updatePrefix dto fid cfg
                  ++ [CallValidateProviderInputs (type cfg) merged;
                      CallEncrypt (JSON_stringify d updatedInput);
                      CallUpdateById (id cfg) (updateRecord dto enc)]),
             inr (updatedRow dto enc cfg))
        end
      end
    end
  end.

(** What [deleteBySlug] does once the actor is authorized, the folder is
    resolved and the config is found. *)
Definition deleteOutcome (d : Deps) (dto : DeleteDTO.t) (w : World) (fid : string)
    (cfg : TDynamicSecret) : World * (Err + TDynamicSecret) :=
  if bool_decide (leaseFind d (id cfg) = [])
  then (mkWorld (dynamicSecretDAL.deleteRows (id cfg) (rows w)) (nextId w)
          (trace w ++ deletePrefix dto fid cfg ++ [CallDeleteById (id cfg)]),
        inr cfg)
  else (mkWorld (dynamicSecretDAL.updateRows (id cfg) flagDeleting (rows w)) (nextId w)
          (trace w ++ deletePrefix dto fid cfg
             ++ [CallUpdateById (id cfg) flagDeleting; CallPruneDynamicSecret (id cfg)]),
        inr (flagged cfg)).

(** Further stores of the concrete deployment. *)
Module Scenario.

(** A row whose tag the codec does not accept. *)
Definition tampered : TDynamicSecret :=
  {| id := 0; folderId := "folder-1"; slug := "db0"; type := "postgres";
     version := 1; inputIV := "iv0"; inputTag := "bad";
     inputCiphertext := "enc:{host:x,port:5432}"; algorithm := "aes-256-gcm";
     keyEncoding := "utf8"; maxTTL := None; defaultTTL := "60";
     isDeleting := false |}.

Definition tamperedWorld : World := mkWorld [tampered] 1 [].


End Scenario.

(** Unfolds one service operation down to state passing. *)
Ltac run :=
  unfold dynamicSecretService.create, dynamicSecretService.updateBySlug,
    dynamicSecretService.deleteBySlug, dynamicSecretService.list,
    dynamicSecretService.permissionService_getProjectPermission,
    dynamicSecretService.folderDAL_findBySecretPath,
    dynamicSecretService.dynamicSecretLeaseDAL_find,
    dynamicSecretService.dynamicSecretQueueService_pruneDynamicSecret,
    dynamicSecretService.encrypt, dynamicSecretService.decrypt,
    dynamicSecretService.callValidateProviderInputs,
    dynamicSecretDAL.findOne, dynamicSecretDAL.find, dynamicSecretDAL.create,
    dynamicSecretDAL.updateById, dynamicSecretDAL.deleteById,
    throwUnlessCan, throwIf, throw, emit, gets, step, liftE,
    mbind, M_bind, mret, M_ret; simpl.

(** Case analysis on an innermost scrutinee of the goal. *)
Ltac is_flat x :=
  lazymatch x with
  | context [if _ then _ else _] => fail
  | context [match _ with _ => _ end] => fail
  | _ => idtac
  end.

Ltac case_inner :=
  match goal with
  | |- context [if ?x then _ else _] => is_flat x; destruct x eqn:?; simpl
  | |- context [match ?x with _ => _ end] => is_flat x; destruct x eqn:?; simpl
  end.

(** Refutes an equation between two outcomes whose traces differ. *)
Ltac trace_differs :=
  let H := fresh "H" in
  intros H; apply (f_equal (λ x, trace x.1)) in H; simpl in H;
  rewrite <- ?app_assoc in H; simpl in H;
  apply app_inv_head in H; discriminate H.

(** * Properties *)

(** ** The store primitives *)

Lemma find_Some_elem {A} (p : A → bool) (l : list A) (x : A) :
  List.find p l = Some x → x ∈ l ∧ p x = true.
Proof.
  intros H. apply find_some in H as [Hin Hp].
  split; [by apply list_elem_of_In | done].
Qed.

Lemma find_None_iff {A} (p : A → bool) (l : list A) :
  List.find p l = None ↔ ∀ x, x ∈ l → p x = false.
Proof.
  split.
  - intros H x Hx. apply (find_none p l H). by apply list_elem_of_In.
  - induction l as [|a l IH]; intros H; [done|]. simpl.
    rewrite (H a) by apply list_elem_of_here.
    apply IH. intros x Hx. apply H. by apply list_elem_of_further.
Qed.

Lemma find_is_Some_iff {A} (p : A → bool) (l : list A) :
  is_Some (List.find p l) ↔ ∃ x, x ∈ l ∧ p x = true.
Proof.
  split.
  - intros [x Hx]. exists x. by apply find_Some_elem.
  - intros (x & Hx & Hp). destruct (List.find p l) eqn:E; [by eexists|].
    rewrite find_None_iff in E. rewrite (E x Hx) in Hp. discriminate.
Qed.

Lemma find_hasId (l : list TDynamicSecret) (r : TDynamicSecret) :
  NoDup (id <$> l) → r ∈ l → List.find (dynamicSecretDAL.hasId (id r)) l = Some r.
Proof.
  induction l as [|a l IH]; intros Hnd Hr; [by apply elem_of_nil in Hr|].
  rewrite fmap_cons in Hnd. apply NoDup_cons in Hnd as [Ha Hnd].
  simpl. unfold dynamicSecretDAL.hasId at 1.
  apply elem_of_cons in Hr as [->|Hr].
  - by rewrite bool_decide_eq_true_2.
  - rewrite bool_decide_eq_false_2; [by apply IH|].
    intros Heq. apply Ha. rewrite Heq. by apply list_elem_of_fmap_2.
Qed.

Lemma updateRows_ids i u l : id <$> dynamicSecretDAL.updateRows i u l = id <$> l.
Proof.
  unfold dynamicSecretDAL.updateRows. rewrite <- list_fmap_compose.
  apply list_fmap_ext. intros _ r _. simpl. by destruct (dynamicSecretDAL.hasId i r).
Qed.

Lemma updateRows_elem i u l r :
  r ∈ l → id r = i → dynamicSecretDAL.applyUpdate u r ∈ dynamicSecretDAL.updateRows i u l.
Proof.
  intros Hr Hi. unfold dynamicSecretDAL.updateRows.
  apply list_elem_of_fmap. exists r. split; [|done].
  unfold dynamicSecretDAL.hasId. by rewrite bool_decide_eq_true_2.
Qed.

Lemma deleteRows_elem i l r :
  r ∈ dynamicSecretDAL.deleteRows i l ↔ r ∈ l ∧ id r ≠ i.
Proof. unfold dynamicSecretDAL.deleteRows. rewrite list_elem_of_filter. tauto. Qed.

Lemma filter_matches_elem f l r :
  r ∈ List.filter (dynamicSecretDAL.matches f) l ↔ r ∈ l ∧ dynamicSecretDAL.matches f r = true.
Proof. rewrite !list_elem_of_In. apply filter_In. Qed.

Lemma matches_usesSlug fid s r :
  dynamicSecretDAL.matches (Filter.mk (Some s) fid) r = true ↔ usesSlug fid s r.
Proof.
  unfold dynamicSecretDAL.matches, usesSlug; simpl.
  rewrite andb_true_iff, !bool_decide_eq_true. tauto.
Qed.

(** ** Authorization comes first *)

(** C9: in each of the four operations an actor without the required
    capability (Create for [create], Edit for the other three) gets
    [ForbiddenError]; the only call made is the permission lookup, so no
    folder is resolved, nothing is decrypted, the store is neither read nor
    written, and its rows are unchanged. *)
Theorem unauthorized_fails_first (d : Deps) (w : World) :
  (∀ dto, allowed d Create (createCaller dto) = false →
     dynamicSecretService.create d dto w =
       (after w [permissionCall (createCaller dto)], inl (forbidden Create)))
  ∧ (∀ dto, allowed d Edit (updateCaller dto) = false →
     dynamicSecretService.updateBySlug d dto w =
       (after w [permissionCall (updateCaller dto)], inl (forbidden Edit)))
  ∧ (∀ dto, allowed d Edit (deleteCaller dto) = false →
     dynamicSecretService.deleteBySlug d dto w =
       (after w [permissionCall (deleteCaller dto)], inl (forbidden Edit)))
  ∧ (∀ dto, allowed d Edit (listCaller dto) = false →
     dynamicSecretService.list d dto w =
       (after w [permissionCall (listCaller dto)], inl (forbidden Edit))).
Proof.
  unfold allowed. repeat split; intros dto Hcan; run; simpl in Hcan; by rewrite Hcan.
Qed.

Lemma unauthorized_fails_first_witness :
  dynamicSecretService.deleteBySlug Fixture.deps
    (Fixture.deleteDto "bob" "/f1" "db1") Fixture.world3 =
  (after Fixture.world3 [CallGetProjectPermission "user" "bob" "p1"],
   inl (forbidden Edit)).
Proof.
  apply (proj1 (proj2 (proj2 (unauthorized_fails_first Fixture.deps Fixture.world3)))).
  reflexivity.
Defined.

(** ** Missing folders and missing configs *)

(** C7 (as the code has it): once the actor is authorized, each of the four
    operations answers an unresolvable folder with a [BadRequestError]
    whose message is "Folder not found", and [updateBySlug] and
    [deleteBySlug] answer a slug with no config in the folder with a
    [BadRequestError] whose message is "Dynamic secret not found"; the
    store is left as it was.  The class is the one also used for slug
    collisions, not a class of its own. *)
Theorem missing_folder_or_config_is_bad_request (d : Deps) (w : World) :
  (∀ dto, allowed d Create (createCaller dto) = true →
     resolved d (createCaller dto) = None →
     dynamicSecretService.create d dto w =
       (after w [permissionCall (createCaller dto); folderCall (createCaller dto)],
        inl (mkErr BadRequestError "Folder not found")))
  ∧ (∀ dto, allowed d Edit (updateCaller dto) = true →
     resolved d (updateCaller dto) = None →
     dynamicSecretService.updateBySlug d dto w =
       (after w [permissionCall (updateCaller dto); folderCall (updateCaller dto)],
        inl (mkErr BadRequestError "Folder not found")))
  ∧ (∀ dto, allowed d Edit (deleteCaller dto) = true →
     resolved d (deleteCaller dto) = None →
     dynamicSecretService.deleteBySlug d dto w =
       (after w [permissionCall (deleteCaller dto); folderCall (deleteCaller dto)],
        inl (mkErr BadRequestError "Folder not found")))
  ∧ (∀ dto, allowed d Edit (listCaller dto) = true →
     resolved d (listCaller dto) = None →
     dynamicSecretService.list d dto w =
       (after w [permissionCall (listCaller dto); folderCall (listCaller dto)],
        inl (mkErr BadRequestError "Folder not found")))
  ∧ (∀ dto folder, allowed d Edit (updateCaller dto) = true →
     resolved d (updateCaller dto) = Some folder →
     (∀ r, r ∈ rows w → ¬ usesSlug (folder_id folder) (UpdateDTO.slug dto) r) →
     dynamicSecretService.updateBySlug d dto w =
       (after w [permissionCall (updateCaller dto); folderCall (updateCaller dto);
                 CallFindOne (Filter.mk (Some (UpdateDTO.slug dto)) (folder_id folder))],
        inl (mkErr BadRequestError "Dynamic secret not found")))
  ∧ (∀ dto folder, allowed d Edit (deleteCaller dto) = true →
     resolved d (deleteCaller dto) = Some folder →
     (∀ r, r ∈ rows w → ¬ usesSlug (folder_id folder) (DeleteDTO.slug dto) r) →
     dynamicSecretService.deleteBySlug d dto w =
       (after w [permissionCall (deleteCaller dto); folderCall (deleteCaller dto);
                 CallFindOne (Filter.mk (Some (DeleteDTO.slug dto)) (folder_id folder))],
        inl (mkErr BadRequestError "Dynamic secret not found")))
  ∧ errClass folderNotFound = errClass alreadyExists
  ∧ errClass dynamicSecretNotFound = errClass alreadyExists.
Proof.
  unfold allowed, resolved.
  repeat split.
  1-4: intros dto Hcan Hres; simpl in Hcan, Hres; run; rewrite Hcan; simpl;
       rewrite Hres; unfold after; simpl; by rewrite <- app_assoc.
  all: intros dto folder Hcan Hres Hnone; simpl in Hcan, Hres; run;
       rewrite Hcan; simpl; rewrite Hres; simpl.
  all: match goal with
       | |- context [List.find ?p ?l] =>
           replace (List.find p l) with (@None TDynamicSecret)
       end.
  1,3: unfold after; simpl; by rewrite <- !app_assoc.
  all: symmetry; apply find_None_iff; intros r Hr;
       apply not_true_is_false; rewrite matches_usesSlug; by apply Hnone.
Qed.

Lemma missing_folder_or_config_is_bad_request_witness :
  dynamicSecretService.deleteBySlug Fixture.deps
    (Fixture.deleteDto "alice" "/f1" "nope") Fixture.world3 =
  (after Fixture.world3
     [CallGetProjectPermission "user" "alice" "p1";
      CallFindBySecretPath "p1" "dev" "/f1";
      CallFindOne (Filter.mk (Some "nope") "folder-1")],
   inl (mkErr BadRequestError "Dynamic secret not found")).
Proof.
  apply (proj1 (proj2 (proj2 (proj2 (proj2 (proj2
           (missing_folder_or_config_is_bad_request Fixture.deps Fixture.world3)))))))
    with (dto := Fixture.deleteDto "alice" "/f1" "nope") (folder := mkFolder "folder-1").
  - reflexivity.
  - reflexivity.
  - intros r Hr [_ Hs]. simpl in Hr.
    repeat (apply elem_of_cons in Hr as [->|Hr]; [discriminate Hs|]).
    by apply elem_of_nil in Hr.
Defined.

(** C7, against the specification: with the folder unresolvable, [create] raises a
    [BadRequestError], which is not the [NotFoundError] the claim names;
    and with the config absent, so does [updateBySlug]. *)
Lemma not_found_error_counterexample :
  snd (dynamicSecretService.create Fixture.deps
         (Fixture.createDto "alice" "/nowhere" "db9" "postgres" Fixture.hostX)
         Fixture.world3)
    = inl (mkErr BadRequestError "Folder not found")
  ∧ snd (dynamicSecretService.create Fixture.deps
         (Fixture.createDto "alice" "/nowhere" "db9" "postgres" Fixture.hostX)
         Fixture.world3)
    ≠ inl (mkErr NotFoundError "Folder not found")
  ∧ snd (dynamicSecretService.updateBySlug Fixture.deps
         (Fixture.updateDto "alice" "/f1" "nope" None None) Fixture.world3)
    = inl (mkErr BadRequestError "Dynamic secret not found")
  ∧ snd (dynamicSecretService.updateBySlug Fixture.deps
         (Fixture.updateDto "alice" "/f1" "nope" None None) Fixture.world3)
    ≠ inl (mkErr NotFoundError "Dynamic secret not found").
Proof. repeat split; try reflexivity; vm_compute; discriminate. Qed.

(** ** What [updateBySlug] leaves alone *)

Lemma updateRows_identity i u l :
  Upd.folderId u = None → Upd.type u = None → Upd.version u = None →
  identity <$> dynamicSecretDAL.updateRows i u l = identity <$> l.
Proof.
  intros Hf Ht Hv. unfold dynamicSecretDAL.updateRows.
  rewrite <- list_fmap_compose. apply list_fmap_ext. intros _ r _. simpl.
  destruct (dynamicSecretDAL.hasId i r); [|done].
  unfold identity, dynamicSecretDAL.applyUpdate; simpl. by rewrite Hf, Ht, Hv.
Qed.

(** C10: whatever the request and whatever the outcome, [updateBySlug]
    leaves the id, folderId, type and version of every row as they were
    (and the rows in place); any write it issues is an [updateById] whose
    partial record carries the five payload fields and the slug, possibly
    maxTTL and defaultTTL, and no other column. *)
Theorem updateBySlug_preserves_identity (d : Deps) (dto : UpdateDTO.t) (w : World) :
  identity <$> rows (dynamicSecretService.updateBySlug d dto w).1 = identity <$> rows w
  ∧ ∃ evs, trace (dynamicSecretService.updateBySlug d dto w).1 = (trace w ++ evs)%list
           ∧ Forall writesPayloadTtlSlugOnly evs.
Proof.
  run.
  repeat case_inner.
  all: rewrite <- ?app_assoc; simpl.
  all: split; [try done; by apply updateRows_identity|].
  all: eexists; split; [reflexivity|].
  all: repeat constructor; simpl; eauto.
Qed.

(** ** The two phases of deletion *)

Lemma configOf_elem w fid s cfg :
  configOf w fid s = Some cfg → cfg ∈ rows w ∧ usesSlug fid s cfg.
Proof.
  intros H. apply find_Some_elem in H as [Hin Hm].
  split; [done | by apply matches_usesSlug].
Qed.

Lemma configOf_None w fid s :
  configOf w fid s = None ↔ ∀ r, r ∈ rows w → ¬ usesSlug fid s r.
Proof.
  unfold configOf. rewrite find_None_iff. split; intros H r Hr.
  - rewrite <- matches_usesSlug. rewrite (H r Hr). discriminate.
  - apply not_true_is_false. rewrite matches_usesSlug. by apply H.
Qed.

Lemma nonempty_length_test {A} (l : list A) :
  negb (bool_decide (length l = 0)) = negb (bool_decide (l = [])).
Proof. by destruct l. Qed.

(** C1: when the config has at least one outstanding lease, [deleteBySlug]
    issues [updateById(id, { isDeleting: true })] and, after it, exactly one
    [pruneDynamicSecret(id)] with the same id; it returns the config with
    the flag set, and the row stays in the store (same ids, the flagged row
    among them). *)
Theorem deleteBySlug_with_leases_flags_then_prunes
    (d : Deps) (dto : DeleteDTO.t) (w : World) (folder : Folder) (cfg : TDynamicSecret) :
  store_wf w →
  allowed d Edit (deleteCaller dto) = true →
  resolved d (deleteCaller dto) = Some folder →
  configOf w (folder_id folder) (DeleteDTO.slug dto) = Some cfg →
  leaseFind d (id cfg) ≠ [] →
  ∃ w',
    dynamicSecretService.deleteBySlug d dto w = (w', inr (flagged cfg))
    ∧ trace w' =
        (trace w ++
         [permissionCall (deleteCaller dto); folderCall (deleteCaller dto);
          CallFindOne (Filter.mk (Some (DeleteDTO.slug dto)) (folder_id folder));
          CallLeaseFind (id cfg);
          CallUpdateById (id cfg) flagDeleting;
          CallPruneDynamicSecret (id cfg)])%list
    ∧ rows w' = dynamicSecretDAL.updateRows (id cfg) flagDeleting (rows w)
    ∧ id <$> rows w' = id <$> rows w
    ∧ flagged cfg ∈ rows w'.
Proof.
  intros [Hnd _] Hcan Hres Hcfg Hleases.
  destruct (configOf_elem _ _ _ _ Hcfg) as [Hin _].
  unfold allowed, resolved, configOf in *; simpl in *.
  eexists. split.
  - run. rewrite Hcan; simpl. rewrite Hres; simpl. rewrite Hcfg; simpl.
    rewrite nonempty_length_test, bool_decide_eq_false_2 by done. simpl.
    rewrite (find_hasId _ _ Hnd Hin). simpl. reflexivity.
  - simpl. rewrite <- !app_assoc. simpl.
    split; [done|]. split; [done|]. split; [apply updateRows_ids|].
    by apply (updateRows_elem (id cfg) flagDeleting).
Qed.

Lemma deleteBySlug_with_leases_flags_then_prunes_witness :
  ∃ w',
    dynamicSecretService.deleteBySlug Fixture.deps
      (Fixture.deleteDto "alice" "/f1" "db1") Fixture.world3
      = (w', inr (flagged (Fixture.row 1 "db1" false)))
    ∧ trace w' =
        (trace Fixture.world3 ++
         [CallGetProjectPermission "user" "alice" "p1";
          CallFindBySecretPath "p1" "dev" "/f1";
          CallFindOne (Filter.mk (Some "db1") "folder-1");
          CallLeaseFind 1;
          CallUpdateById 1 flagDeleting;
          CallPruneDynamicSecret 1])%list
    ∧ rows w' = dynamicSecretDAL.updateRows 1 flagDeleting (rows Fixture.world3)
    ∧ id <$> rows w' = id <$> rows Fixture.world3
    ∧ flagged (Fixture.row 1 "db1" false) ∈ rows w'.
Proof.
  apply (deleteBySlug_with_leases_flags_then_prunes Fixture.deps
           (Fixture.deleteDto "alice" "/f1" "db1") Fixture.world3
           (mkFolder "folder-1") (Fixture.row 1 "db1" false)).
  - apply (bool_decide_unpack _). vm_compute. exact I.
  - reflexivity.
  - reflexivity.
  - reflexivity.
  - simpl. discriminate.
Defined.

(** C3: when the config has no outstanding lease, [deleteBySlug] removes
    its row within the call (the last call it makes is [deleteById]; the
    scheduler is not involved) and returns the removed record; a [list] on
    the same folder run on the resulting store succeeds and its result
    contains neither that record nor any row with its id. *)
Theorem deleteBySlug_without_leases_removes
    (d : Deps) (dto : DeleteDTO.t) (w : World) (folder : Folder) (cfg : TDynamicSecret) :
  store_wf w →
  allowed d Edit (deleteCaller dto) = true →
  resolved d (deleteCaller dto) = Some folder →
  configOf w (folder_id folder) (DeleteDTO.slug dto) = Some cfg →
  leaseFind d (id cfg) = [] →
  ∃ w',
    dynamicSecretService.deleteBySlug d dto w = (w', inr cfg)
    ∧ trace w' =
        (trace w ++
         [permissionCall (deleteCaller dto); folderCall (deleteCaller dto);
          CallFindOne (Filter.mk (Some (DeleteDTO.slug dto)) (folder_id folder));
          CallLeaseFind (id cfg);
          CallDeleteById (id cfg)])%list
    ∧ (∀ r, r ∈ rows w' ↔ r ∈ rows w ∧ r ≠ cfg)
    ∧ ∀ ldto, allowed d Edit (listCaller ldto) = true →
        resolved d (listCaller ldto) = Some folder →
        ∃ w'' res,
          dynamicSecretService.list d ldto w' = (w'', inr res)
          ∧ rows w'' = rows w'
          ∧ (cfg ∉ res)
          ∧ (∀ r, r ∈ res → id r ≠ id cfg)
          ∧ (∀ r, r ∈ res ↔ r ∈ rows w ∧ r ≠ cfg ∧ folderId r = folder_id folder).
Proof.
  intros [Hnd _] Hcan Hres Hcfg Hleases.
  destruct (configOf_elem _ _ _ _ Hcfg) as [Hin _].
  assert (Hsame : ∀ r, r ∈ rows w → (id r ≠ id cfg ↔ r ≠ cfg)).
  { intros r Hr. split; [congruence|]. intros Hne Hid. apply Hne.
    pose proof (find_hasId _ _ Hnd Hr) as H1. rewrite Hid in H1.
    rewrite (find_hasId _ _ Hnd Hin) in H1. congruence. }
  assert (Hrows : ∀ r, r ∈ dynamicSecretDAL.deleteRows (id cfg) (rows w)
                       ↔ r ∈ rows w ∧ r ≠ cfg).
  { intros r. rewrite deleteRows_elem. split; intros [Hr Hne]; (split; [done|]);
      by apply (Hsame r Hr). }
  unfold allowed, resolved, configOf in *; simpl in *.
  eexists. split.
  - run. rewrite Hcan; simpl. rewrite Hres; simpl. rewrite Hcfg; simpl.
    rewrite Hleases; simpl.
    rewrite (find_hasId _ _ Hnd Hin). simpl. reflexivity.
  - simpl. rewrite <- !app_assoc. simpl.
    split; [done|]. split; [exact Hrows|].
    intros ldto Hcan' Hres'. simpl in *.
    eexists _, _. split.
    { run. rewrite Hcan'; simpl. rewrite Hres'; simpl. reflexivity. }
    simpl. split; [done|].
    assert (Hres_elem : ∀ r,
      r ∈ List.filter (dynamicSecretDAL.matches (Filter.mk None (folder_id folder)))
            (dynamicSecretDAL.deleteRows (id cfg) (rows w))
      ↔ r ∈ rows w ∧ r ≠ cfg ∧ folderId r = folder_id folder).
    { intros r. rewrite filter_matches_elem, Hrows.
      unfold dynamicSecretDAL.matches; simpl.
      rewrite andb_true_r, bool_decide_eq_true. tauto. }
    split; [|split]; [| |exact Hres_elem].
    + intros Hc. apply Hres_elem in Hc. tauto.
    + intros r Hr. apply Hres_elem in Hr as (Hr & Hne & _). by apply Hsame.
Qed.

Lemma deleteBySlug_without_leases_removes_witness :
  ∃ w',
    dynamicSecretService.deleteBySlug Fixture.deps
      (Fixture.deleteDto "alice" "/f1" "db0") Fixture.world3
      = (w', inr (Fixture.row 0 "db0" false))
    ∧ trace w' =
        (trace Fixture.world3 ++
         [CallGetProjectPermission "user" "alice" "p1";
          CallFindBySecretPath "p1" "dev" "/f1";
          CallFindOne (Filter.mk (Some "db0") "folder-1");
          CallLeaseFind 0;
          CallDeleteById 0])%list
    ∧ (∀ r, r ∈ rows w' ↔ r ∈ rows Fixture.world3 ∧ r ≠ Fixture.row 0 "db0" false)
    ∧ ∀ ldto, allowed Fixture.deps Edit (listCaller ldto) = true →
        resolved Fixture.deps (listCaller ldto) = Some (mkFolder "folder-1") →
        ∃ w'' res,
          dynamicSecretService.list Fixture.deps ldto w' = (w'', inr res)
          ∧ rows w'' = rows w'
          ∧ (Fixture.row 0 "db0" false ∉ res)
          ∧ (∀ r, r ∈ res → id r ≠ id (Fixture.row 0 "db0" false))
          ∧ (∀ r, r ∈ res ↔ r ∈ rows Fixture.world3 ∧ r ≠ Fixture.row 0 "db0" false
                             ∧ folderId r = folder_id (mkFolder "folder-1")).
Proof.
  apply (deleteBySlug_without_leases_removes Fixture.deps
           (Fixture.deleteDto "alice" "/f1" "db0") Fixture.world3
           (mkFolder "folder-1") (Fixture.row 0 "db0" false)).
  - apply (bool_decide_unpack _). vm_compute. exact I.
  - reflexivity.
  - reflexivity.
  - reflexivity.
  - reflexivity.
Defined.

(** ** Updating: merge, re-validate, re-encrypt *)

Lemma spread_lookup (a b : JsObject) (k : string) :
  spread a b !! k = match b !! k with Some v => Some v | None => a !! k end.
Proof.
  unfold spread. destruct (b !! k) as [v|] eqn:E.
  - by apply lookup_union_Some_l.
  - by apply lookup_union_r.
Qed.

Lemma rename_check_passes (w : World) (dto : UpdateDTO.t) (fid : string) :
  renameFree w dto fid →
  truthy (UpdateDTO.newSlug dto) = true →
  List.find (dynamicSecretDAL.matches (Filter.mk (UpdateDTO.newSlug dto) fid)) (rows w) = None.
Proof.
  unfold renameFree, truthy. intros Hfree Ht.
  destruct (UpdateDTO.newSlug dto) as [s|]; [|discriminate].
  apply (configOf_None w fid s). apply Hfree; [done|].
  intros ->. discriminate.
Qed.

(** C2: for a stored config whose input decrypts and parses to [stored],
    [updateBySlug] hands the provider registered for the config's own type
    the object [{ ...stored, ...(inputs || {}) }]: every field of the patch
    wins and every stored field the patch does not mention is kept (stored
    a:1, b:2 with patch b:3 gives a:1, b:3).  If the provider rejects the
    merged object its error is propagated and no row changes; otherwise the
    validated object is serialised, encrypted, and written on the row by a
    single [updateById], and the updated row is returned. *)
Theorem updateBySlug_merges_and_revalidates
    (d : Deps) (dto : UpdateDTO.t) (w : World) (folder : Folder)
    (cfg : TDynamicSecret) (plaintext : string) (stored : JsObject)
    (p : TDynamicProviderFns) :
  store_wf w →
  allowed d Edit (updateCaller dto) = true →
  resolved d (updateCaller dto) = Some folder →
  configOf w (folder_id folder) (UpdateDTO.slug dto) = Some cfg →
  renameFree w dto (folder_id folder) →
  infisicalSymmetricDecrypt d (keyEncoding cfg) (inputCiphertext cfg)
    (inputTag cfg) (inputIV cfg) = inr plaintext →
  JSON_parse d plaintext = inr stored →
  dynamicSecretProviders d !! type cfg = Some p →
  let patch : JsObject := default ∅ (UpdateDTO.inputs dto) in
  let merged := spread stored patch in
  let before :=
    ([permissionCall (updateCaller dto); folderCall (updateCaller dto);
      CallFindOne (Filter.mk (Some (UpdateDTO.slug dto)) (folder_id folder))]
     ++ renameCheck dto (folder_id folder)
     ++ [CallDecrypt (inputCiphertext cfg);
         CallValidateProviderInputs (type cfg) merged])%list in
  (∀ k v, patch !! k = Some v → merged !! k = Some v)
  ∧ (∀ k, patch !! k = None → merged !! k = stored !! k)
  ∧ spread {[ "a" := JsNum 1; "b" := JsNum 2 ]} {[ "b" := JsNum 3 ]}
      = ({[ "a" := JsNum 1; "b" := JsNum 3 ]} : JsObject)
  ∧ match validateProviderInputs p merged with
    | inl e =>
        dynamicSecretService.updateBySlug d dto w = (after w before, inl e)
    | inr updatedInput =>
        let enc := infisicalSymmetricEncypt d (JSON_stringify d updatedInput) in
        dynamicSecretService.updateBySlug d dto w =
          (mkWorld
             (dynamicSecretDAL.updateRows (id cfg) (updateRecord dto enc) (rows w))
             (nextId w)
             (trace w ++ before
                ++ [CallEncrypt (JSON_stringify d updatedInput);
                    CallUpdateById (id cfg) (updateRecord dto enc)]),
           inr (updatedRow dto enc cfg))
        ∧ updatedRow dto enc cfg
            ∈ dynamicSecretDAL.updateRows (id cfg) (updateRecord dto enc) (rows w)
    end.
Proof.
  intros [Hnd _] Hcan Hres Hcfg Hfree Hdec Hparse Hprov patch merged before.
  destruct (configOf_elem _ _ _ _ Hcfg) as [Hin _].
  split; [|split; [|split]].
  - intros k v Hk. unfold merged. by rewrite spread_lookup, Hk.
  - intros k Hk. unfold merged. by rewrite spread_lookup, Hk.
  - apply map_eq. intros k. rewrite spread_lookup.
    destruct (decide (k = "b")) as [->|Hb]; [done|].
    rewrite lookup_singleton_ne by done.
    destruct (decide (k = "a")) as [->|Ha]; [done|].
    by rewrite !lookup_insert_ne, !lookup_singleton_ne by done.
  - assert (Hrun :
      dynamicSecretService.updateBySlug d dto w =
      match validateProviderInputs p merged with
      | inl e => (after w before, inl e)
      | inr updatedInput =>
          dynamicSecretDAL.updateById (id cfg)
            (updateRecord dto (infisicalSymmetricEncypt d (JSON_stringify d updatedInput)))
            (after w (before ++ [CallEncrypt (JSON_stringify d updatedInput)]))
      end).
    { unfold allowed, resolved, configOf in *; simpl in *.
      unfold before, renameCheck.
      run. rewrite Hcan; simpl. rewrite Hres; simpl. rewrite Hcfg; simpl.
      destruct (truthy (UpdateDTO.newSlug dto)) eqn:Ht; simpl.
      - rewrite (rename_check_passes w dto (folder_id folder) Hfree Ht). simpl.
        rewrite Hdec; simpl. rewrite Hparse; simpl. rewrite Hprov; simpl.
        fold patch. fold merged.
        destruct (validateProviderInputs p merged); unfold after; simpl;
          rewrite <- ?app_assoc; simpl; reflexivity.
      - rewrite Hdec; simpl. rewrite Hparse; simpl. rewrite Hprov; simpl.
        fold patch. fold merged.
        destruct (validateProviderInputs p merged); unfold after; simpl;
          rewrite <- ?app_assoc; simpl; reflexivity. }
    destruct (validateProviderInputs p merged) as [e|updatedInput]; [done|].
    simpl. split.
    + rewrite Hrun. run. rewrite (find_hasId _ _ Hnd Hin). unfold before.
      repeat (simpl; rewrite <- app_assoc). simpl.
      unfold updatedRow, dynamicSecretDAL.applyUpdate, updateRecord; simpl.
      by destruct (UpdateDTO.newSlug dto), (UpdateDTO.defaultTTL dto).
    + replace (updatedRow dto _ cfg) with
        (dynamicSecretDAL.applyUpdate
           (updateRecord dto (infisicalSymmetricEncypt d (JSON_stringify d updatedInput))) cfg).
      * by apply updateRows_elem.
      * unfold updatedRow, dynamicSecretDAL.applyUpdate, updateRecord; simpl.
        by destruct (UpdateDTO.newSlug dto), (UpdateDTO.defaultTTL dto).
Qed.

Lemma updateBySlug_merges_and_revalidates_witness :
  snd (dynamicSecretService.updateBySlug Fixture.deps
         (Fixture.updateDto "alice" "/f1" "db0" None (Some Fixture.portOnly))
         Fixture.world3)
  = inr (updatedRow
           (Fixture.updateDto "alice" "/f1" "db0" None (Some Fixture.portOnly))
           (Fixture.toyEncrypt "{host:x,port:5433}")
           (Fixture.row 0 "db0" false)).
Proof.
  destruct (updateBySlug_merges_and_revalidates Fixture.deps
              (Fixture.updateDto "alice" "/f1" "db0" None (Some Fixture.portOnly))
              Fixture.world3 (mkFolder "folder-1") (Fixture.row 0 "db0" false)
              "{host:x,port:5432}" Fixture.hostX Fixture.postgres)
    as (_ & _ & _ & H).
  - apply (bool_decide_unpack _). vm_compute. exact I.
  - reflexivity.
  - reflexivity.
  - reflexivity.
  - intros s Hs. discriminate Hs.
  - reflexivity.
  - reflexivity.
  - reflexivity.
  - assert (Hv : validateProviderInputs Fixture.postgres
                   (spread Fixture.hostX (default ∅ (Some Fixture.portOnly)))
                 = inr Fixture.hostX') by (vm_compute; reflexivity).
    simpl in H. simpl in Hv. rewrite Hv in H. destruct H as [H _].
    rewrite H. reflexivity.
Defined.

(** ** Creating *)

Lemma no_clash (w : World) (r : Ins.t) :
  (∀ x, x ∈ rows w → ¬ usesSlug (Ins.folderId r) (Ins.slug r) x) →
  existsb (dynamicSecretDAL.clashes r) (rows w) = false.
Proof.
  intros Hfree. apply not_true_is_false. intros H.
  apply existsb_exists in H as (x & Hin & Hx).
  apply list_elem_of_In in Hin. apply (Hfree x Hin).
  unfold dynamicSecretDAL.clashes in Hx.
  rewrite !andb_true_iff, !bool_decide_eq_true in Hx. by destruct Hx as [[? ?] _].
Qed.

Lemma precheck_free (w : World) (fid s : string) (b : bool) :
  b = bool_decide (is_Some (configOf w fid s)) →
  b = false ↔ ∀ r, r ∈ rows w → ¬ usesSlug fid s r.
Proof.
  intros ->. rewrite bool_decide_eq_false, <- configOf_None.
  rewrite <- eq_None_not_Some. done.
Qed.

(** C8: [create] succeeds exactly when the actor may create, the folder
    resolves, no row of the folder has the slug, the provider is registered
    and accepts the input.  The row it then persists (appended to the
    store by one [dynamicSecretDAL.create] call whose record carries the
    five payload fields together) has version 1, [isDeleting = false] and
    the output of the codec as payload; the returned config is that row,
    made of the request's metadata and the ciphertext only. *)
Theorem create_succeeds_iff
    (d : Deps) (dto : CreateDTO.t) (w w' : World) (cfg : TDynamicSecret) :
  dynamicSecretService.create d dto w = (w', inr cfg)
  ↔ ∃ folder p validated,
      allowed d Create (createCaller dto) = true
      ∧ resolved d (createCaller dto) = Some folder
      ∧ (∀ r, r ∈ rows w → ¬ usesSlug (folder_id folder) (CreateDTO.slug dto) r)
      ∧ dynamicSecretProviders d !! ProviderSpec.type (CreateDTO.provider dto) = Some p
      ∧ validateProviderInputs p (ProviderSpec.inputs (CreateDTO.provider dto))
          = inr validated
      ∧ let enc := infisicalSymmetricEncypt d (JSON_stringify d validated) in
        cfg = createdRow (nextId w) dto (folder_id folder) enc
        ∧ version cfg = 1%Z ∧ isDeleting cfg = false
        ∧ w' = mkWorld (rows w ++ [cfg]) (N.succ (nextId w))
                 (trace w ++ createPrecheck dto (folder_id folder)
                    ++ [CallValidateProviderInputs
                          (ProviderSpec.type (CreateDTO.provider dto))
                          (ProviderSpec.inputs (CreateDTO.provider dto));
                        CallEncrypt (JSON_stringify d validated);
                        CallCreate (createRecord dto (folder_id folder) enc)]).
Proof.
  unfold allowed, resolved, createPrecheck; simpl. split.
  - run.
    destruct (can _ _ _) eqn:Hcan; simpl; [|discriminate].
    destruct (findBySecretPath _ _ _ _) as [folder|] eqn:Hres; simpl; [|discriminate].
    destruct (bool_decide _) eqn:Hpre; simpl; [discriminate|].
    destruct (dynamicSecretProviders d !! _) as [p|] eqn:Hp; simpl; [|discriminate].
    destruct (validateProviderInputs p _) as [e|validated] eqn:Hv; simpl; [discriminate|].
    destruct (existsb _ _) eqn:Hclash; simpl; [discriminate|].
    intros [= <- <-].
    exists folder, p, validated. repeat split; try done.
    + by apply (precheck_free w (folder_id folder) (CreateDTO.slug dto) false).
    + by rewrite <- !app_assoc.
  - intros (folder & p & validated & Hcan & Hres & Hfree & Hp & Hv & -> & _ & _ & ->).
    run. rewrite Hcan; simpl. rewrite Hres; simpl.
    pose proof (proj2 (configOf_None w _ _) Hfree) as Hnone.
    unfold configOf in Hnone. rewrite Hnone; simpl.
    rewrite Hp; simpl. rewrite Hv; simpl.
    rewrite no_clash by done. simpl. by rewrite <- !app_assoc.
Qed.

(** The scenario of the spec: creating [db1] in [/f1] on an empty store. *)
Lemma create_succeeds_iff_witness :
  dynamicSecretService.create Fixture.deps
    (Fixture.createDto "alice" "/f1" "db1" "postgres" Fixture.hostX)
    Fixture.emptyWorld
  = (mkWorld
       [createdRow 0 (Fixture.createDto "alice" "/f1" "db1" "postgres" Fixture.hostX)
          "folder-1" (Fixture.toyEncrypt "{host:x,port:5432}")]
       1
       [CallGetProjectPermission "user" "alice" "p1";
        CallFindBySecretPath "p1" "dev" "/f1";
        CallFindOne (Filter.mk (Some "db1") "folder-1");
        CallValidateProviderInputs "postgres" Fixture.hostX;
        CallEncrypt "{host:x,port:5432}";
        CallCreate
          (createRecord (Fixture.createDto "alice" "/f1" "db1" "postgres" Fixture.hostX)
             "folder-1" (Fixture.toyEncrypt "{host:x,port:5432}"))],
     inr (createdRow 0 (Fixture.createDto "alice" "/f1" "db1" "postgres" Fixture.hostX)
            "folder-1" (Fixture.toyEncrypt "{host:x,port:5432}"))).
Proof.
  apply create_succeeds_iff.
  exists (mkFolder "folder-1"), Fixture.postgres, Fixture.hostX.
  repeat split; try reflexivity.
  intros r Hr. by apply elem_of_nil in Hr.
Defined.

(** C5 (as the code has it): for an authorized actor and a resolved folder,
    [create] stops at its slug pre-check with the [BadRequestError]
    "Provided dynamic secret already exist under the folder" (before any
    validation, encryption or store write) exactly when some row of the
    folder has the slug, whether or not that row is flagged as deleting; in
    particular a row with [isDeleting = true] blocks the creation. *)
Theorem create_collides_iff_slug_taken
    (d : Deps) (dto : CreateDTO.t) (w : World) (folder : Folder) :
  allowed d Create (createCaller dto) = true →
  resolved d (createCaller dto) = Some folder →
  (dynamicSecretService.create d dto w
     = (after w (createPrecheck dto (folder_id folder)),
        inl (mkErr BadRequestError
               "Provided dynamic secret already exist under the folder"))
   ↔ ∃ r, r ∈ rows w ∧ usesSlug (folder_id folder) (CreateDTO.slug dto) r)
  ∧ (∀ r, r ∈ rows w → usesSlug (folder_id folder) (CreateDTO.slug dto) r →
          isDeleting r = true →
          snd (dynamicSecretService.create d dto w) = inl alreadyExists).
Proof.
  intros Hcan Hres.
  assert (Hhit : (∃ r, r ∈ rows w ∧ usesSlug (folder_id folder) (CreateDTO.slug dto) r) →
    dynamicSecretService.create d dto w
      = (after w (createPrecheck dto (folder_id folder)), inl alreadyExists)).
  { intros (r & Hr & Hu).
    assert (Hsome : is_Some (configOf w (folder_id folder) (CreateDTO.slug dto))).
    { apply find_is_Some_iff. exists r. split; [done|]. by apply matches_usesSlug. }
    unfold allowed, resolved, configOf, createPrecheck in *; simpl in *.
    run. rewrite Hcan; simpl. rewrite Hres; simpl.
    rewrite bool_decide_eq_true_2 by done. simpl.
    unfold after; simpl. by rewrite <- !app_assoc. }
  split; [split; [|exact Hhit]|].
  - intros Hrun.
    destruct (configOf w (folder_id folder) (CreateDTO.slug dto)) as [r|] eqn:Hcfg.
    { exists r. by apply configOf_elem. }
    exfalso. revert Hrun.
    unfold allowed, resolved, configOf, createPrecheck in *; simpl in *.
    run. rewrite Hcan; simpl. rewrite Hres; simpl. rewrite Hcfg; simpl.
    rewrite <- !app_assoc; simpl.
    destruct (dynamicSecretProviders d !! _) as [p|]; simpl; [|discriminate].
    destruct (validateProviderInputs p _) as [e|validated]; simpl.
    + intros [= H _]. rewrite <- (app_nil_r (trace w ++ _)) in H.
      rewrite <- !app_assoc in H. apply app_inv_head in H. discriminate H.
    + destruct (existsb _ _); simpl; discriminate.
  - intros r Hr Hu _. rewrite Hhit by eauto. done.
Qed.

Lemma create_collides_iff_slug_taken_witness :
  ∃ r, r ∈ rows Fixture.world3 ∧ usesSlug "folder-1" "db1" r.
Proof.
  apply (proj1 (create_collides_iff_slug_taken Fixture.deps
                  (Fixture.createDto "alice" "/f1" "db1" "postgres" Fixture.hostX)
                  Fixture.world3 (mkFolder "folder-1") eq_refl eq_refl)).
  reflexivity.
Defined.

(** C5, against the specification: the only row of the folder with slug [old] is
    flagged as deleting, and yet creating [old] there is refused; the error
    is a [BadRequestError], not a [ConflictError]. *)
Lemma create_blocked_by_deleting_row_counterexample :
  List.filter (dynamicSecretDAL.matches (Filter.mk (Some "old") "folder-1"))
    (rows Fixture.world3) = [Fixture.row 2 "old" true]
  ∧ isDeleting (Fixture.row 2 "old" true) = true
  ∧ dynamicSecretService.create Fixture.deps
      (Fixture.createDto "alice" "/f1" "old" "postgres" Fixture.hostX) Fixture.world3
    = (after Fixture.world3
         [CallGetProjectPermission "user" "alice" "p1";
          CallFindBySecretPath "p1" "dev" "/f1";
          CallFindOne (Filter.mk (Some "old") "folder-1")],
       inl (mkErr BadRequestError
              "Provided dynamic secret already exist under the folder"))
  ∧ errClass alreadyExists ≠ ConflictError.
Proof. repeat split; try reflexivity. discriminate. Qed.

(** ** An unregistered provider type *)

(** C6 (as the code has it): when the registry has no entry for the
    requested provider type, [create] fails whatever the rest of the request
    is, issues no store write and leaves rows and id counter as they were;
    for an authorized actor, a resolved folder and a free slug the failure
    is the runtime's [TypeError] for reading [validateProviderInputs] of
    [undefined], raised right after the slug pre-check. *)
Theorem create_unknown_provider_fails
    (d : Deps) (dto : CreateDTO.t) (w : World) :
  dynamicSecretProviders d !! ProviderSpec.type (CreateDTO.provider dto) = None →
  (∃ e, snd (dynamicSecretService.create d dto w) = inl e)
  ∧ rows (dynamicSecretService.create d dto w).1 = rows w
  ∧ nextId (dynamicSecretService.create d dto w).1 = nextId w
  ∧ (∀ r, CallCreate r ∉ trace w →
          CallCreate r ∉ trace (dynamicSecretService.create d dto w).1)
  ∧ (∀ folder,
       allowed d Create (createCaller dto) = true →
       resolved d (createCaller dto) = Some folder →
       (∀ r, r ∈ rows w → ¬ usesSlug (folder_id folder) (CreateDTO.slug dto) r) →
       ∃ msg,
         dynamicSecretService.create d dto w
           = (after w (createPrecheck dto (folder_id folder)),
              inl (mkErr TypeError msg))).
Proof.
  intros Hp. unfold allowed, resolved, createPrecheck; simpl.
  split; [|split; [|split; [|split]]].
  1-3: run; rewrite Hp; repeat case_inner; by eauto.
  - run; rewrite Hp; repeat case_inner; intros r Hr;
      rewrite !elem_of_app, !list_elem_of_singleton; intuition discriminate.
  - intros folder Hcan Hres Hfree. run. rewrite Hcan; simpl. rewrite Hres; simpl.
    pose proof (proj2 (configOf_None w _ _) Hfree) as Hnone.
    unfold configOf in Hnone. rewrite Hnone; simpl. rewrite Hp; simpl.
    eexists. unfold after; simpl. by rewrite <- !app_assoc.
Qed.

Lemma create_unknown_provider_fails_witness :
  ∃ msg,
    dynamicSecretService.create Fixture.deps
      (Fixture.createDto "alice" "/f1" "db9" "mysql" Fixture.hostX) Fixture.world3
    = (after Fixture.world3
         (createPrecheck (Fixture.createDto "alice" "/f1" "db9" "mysql" Fixture.hostX)
            "folder-1"),
       inl (mkErr TypeError msg)).
Proof.
  apply (proj2 (proj2 (proj2 (proj2
           (create_unknown_provider_fails Fixture.deps
              (Fixture.createDto "alice" "/f1" "db9" "mysql" Fixture.hostX)
              Fixture.world3 eq_refl)))) (mkFolder "folder-1")).
  - reflexivity.
  - reflexivity.
  - intros r Hr [_ Hs]. simpl in Hr.
    repeat (apply elem_of_cons in Hr as [->|Hr]; [discriminate Hs|]).
    by apply elem_of_nil in Hr.
Defined.

(** C6, against the specification: with the unregistered type [mysql] the error
    [create] raises is a [TypeError]; it is neither a [ValidationError] nor
    an [UnknownProviderError]. *)
Lemma create_unknown_provider_counterexample :
  dynamicSecretProviders Fixture.deps !! "mysql" = None
  ∧ ∃ e, snd (dynamicSecretService.create Fixture.deps
                (Fixture.createDto "alice" "/f1" "db9" "mysql" Fixture.hostX)
                Fixture.world3) = inl e
         ∧ errClass e = TypeError
         ∧ errClass e ≠ ValidationError
         ∧ errClass e ≠ UnknownProviderError.
Proof.
  split; [reflexivity|]. eexists. split; [reflexivity|].
  repeat split; discriminate.
Qed.

(** ** Renaming *)

(** C4 (as the code has it): for an authorized actor, a resolved folder and
    an existing config, [updateBySlug] stops at its rename check with the
    [BadRequestError] "Provided dynamic secret already exist under the
    folder" only when [newSlug] is given, not empty, and used by some row of
    the folder, flagged as deleting or not; and it does stop there whenever
    [newSlug] is given, not empty, different from the current slug and used
    by some row of the folder. *)
Theorem updateBySlug_rename_collision
    (d : Deps) (dto : UpdateDTO.t) (w : World) (folder : Folder) (cfg : TDynamicSecret) :
  allowed d Edit (updateCaller dto) = true →
  resolved d (updateCaller dto) = Some folder →
  configOf w (folder_id folder) (UpdateDTO.slug dto) = Some cfg →
  let stopped :=
    (after w
       [permissionCall (updateCaller dto); folderCall (updateCaller dto);
        CallFindOne (Filter.mk (Some (UpdateDTO.slug dto)) (folder_id folder));
        CallFindOne (Filter.mk (UpdateDTO.newSlug dto) (folder_id folder))],
     inl (mkErr BadRequestError
            "Provided dynamic secret already exist under the folder")
       : Err + TDynamicSecret) in
  (dynamicSecretService.updateBySlug d dto w = stopped →
     ∃ s, UpdateDTO.newSlug dto = Some s ∧ s ≠ EmptyString
          ∧ ∃ r, r ∈ rows w ∧ usesSlug (folder_id folder) s r)
  ∧ (∀ s r, UpdateDTO.newSlug dto = Some s → s ≠ EmptyString → s ≠ UpdateDTO.slug dto →
            r ∈ rows w → usesSlug (folder_id folder) s r →
            dynamicSecretService.updateBySlug d dto w = stopped).
Proof.
  intros Hcan Hres Hcfg stopped. unfold stopped.
  unfold allowed, resolved, configOf in *; simpl in *.
  split.
  - run. rewrite Hcan; simpl. rewrite Hres; simpl. rewrite Hcfg; simpl.
    rewrite <- !app_assoc; simpl.
    destruct (UpdateDTO.newSlug dto) as [s|] eqn:Hs; simpl.
    + destruct (bool_decide (s = EmptyString)) eqn:Hempty; simpl.
      * repeat case_inner; trace_differs.
      * destruct (List.find (dynamicSecretDAL.matches (Filter.mk (Some s) _)) (rows w))
          as [r|] eqn:Hfind; simpl.
        -- intros _. exists s. split; [done|].
           split; [by apply bool_decide_eq_false in Hempty|].
           exists r. apply (configOf_elem w (folder_id folder) s r Hfind).
        -- repeat case_inner; trace_differs.
    + repeat case_inner; trace_differs.
  - intros s r Hs Hne _ Hr Hu.
    assert (Hsome : is_Some (configOf w (folder_id folder) s)).
    { apply find_is_Some_iff. exists r. split; [done|]. by apply matches_usesSlug. }
    unfold configOf in Hsome.
    run. rewrite Hcan; simpl. rewrite Hres; simpl. rewrite Hcfg; simpl.
    rewrite Hs; simpl. rewrite bool_decide_eq_false_2 by done. simpl.
    rewrite bool_decide_eq_true_2 by done. simpl.
    unfold after; simpl. by rewrite <- !app_assoc.
Qed.

Lemma updateBySlug_rename_collision_witness :
  dynamicSecretService.updateBySlug Fixture.deps
    (Fixture.updateDto "alice" "/f1" "db0" (Some "db1") None) Fixture.world3
  = (after Fixture.world3
       [CallGetProjectPermission "user" "alice" "p1";
        CallFindBySecretPath "p1" "dev" "/f1";
        CallFindOne (Filter.mk (Some "db0") "folder-1");
        CallFindOne (Filter.mk (Some "db1") "folder-1")],
     inl (mkErr BadRequestError
            "Provided dynamic secret already exist under the folder")).
Proof.
  apply (proj2 (updateBySlug_rename_collision Fixture.deps
                  (Fixture.updateDto "alice" "/f1" "db0" (Some "db1") None)
                  Fixture.world3 (mkFolder "folder-1") (Fixture.row 0 "db0" false)
                  eq_refl eq_refl eq_refl)
           "db1" (Fixture.row 1 "db1" false)).
  - reflexivity.
  - discriminate.
  - discriminate.
  - simpl. apply list_elem_of_further, list_elem_of_here.
  - split; reflexivity.
Defined.

(** C4, against the specification: the only row of the folder with slug [old] is
    flagged as deleting, so no non-deleted config uses that slug, and yet
    renaming [db0] to [old] is refused; the error is a [BadRequestError],
    not a [ConflictError]. *)
Lemma updateBySlug_rename_counterexample :
  List.filter (dynamicSecretDAL.matches (Filter.mk (Some "old") "folder-1"))
    (rows Fixture.world3) = [Fixture.row 2 "old" true]
  ∧ isDeleting (Fixture.row 2 "old" true) = true
  ∧ dynamicSecretService.updateBySlug Fixture.deps
      (Fixture.updateDto "alice" "/f1" "db0" (Some "old") None) Fixture.world3
    = (after Fixture.world3
         [CallGetProjectPermission "user" "alice" "p1";
          CallFindBySecretPath "p1" "dev" "/f1";
          CallFindOne (Filter.mk (Some "db0") "folder-1");
          CallFindOne (Filter.mk (Some "old") "folder-1")],
       inl (mkErr BadRequestError
              "Provided dynamic secret already exist under the folder"))
  ∧ errClass alreadyExists ≠ ConflictError.
Proof. repeat split; try reflexivity. discriminate. Qed.

(** The rename check does not set the config itself apart: asking for the
    slug the config already has is answered like any other taken slug. *)
Example updateBySlug_same_slug_is_refused :
  snd (dynamicSecretService.updateBySlug Fixture.deps
         (Fixture.updateDto "alice" "/f1" "db0" (Some "db0") None) Fixture.world3)
  = inl alreadyExists.
Proof. reflexivity. Qed.

(** An empty [newSlug] is falsy, so the rename check is skipped, but it is
    not nullish, so it becomes the slug of the row. *)
Example updateBySlug_empty_newSlug :
  slug <$> rows (dynamicSecretService.updateBySlug Fixture.deps
                   (Fixture.updateDto "alice" "/f1" "db0" (Some EmptyString) None)
                   Fixture.world3).1
  = [EmptyString; "db1"; "old"].
Proof. reflexivity. Qed.

(** ** The store stays well formed *)

Lemma wf_insert (l : list TDynamicSecret) (n : N) (r : Ins.t) :
  NoDup (id <$> l) → Forall (λ x, (id x < n)%N) l →
  NoDup (id <$> (l ++ [dynamicSecretDAL.insertRow n r])%list)
  ∧ Forall (λ x, (id x < N.succ n)%N) (l ++ [dynamicSecretDAL.insertRow n r])%list.
Proof.
  intros Hnd Hlt. split.
  - rewrite fmap_app. apply NoDup_app. split; [done|]. split.
    + intros i Hi Hn. apply list_elem_of_singleton in Hn. simpl in Hn. subst i.
      apply list_elem_of_fmap in Hi as (x & Hx & Hin).
      rewrite Forall_forall in Hlt. specialize (Hlt x Hin). lia.
    + apply NoDup_singleton.
  - apply Forall_app. split.
    + eapply Forall_impl; [exact Hlt|]. intros x Hx. simpl in Hx. lia.
    + apply Forall_singleton. simpl. lia.
Qed.

Lemma wf_update (l : list TDynamicSecret) (n i : N) (u : Upd.t) :
  NoDup (id <$> l) → Forall (λ x, (id x < n)%N) l →
  NoDup (id <$> dynamicSecretDAL.updateRows i u l)
  ∧ Forall (λ x, (id x < n)%N) (dynamicSecretDAL.updateRows i u l).
Proof.
  intros Hnd Hlt. split; [by rewrite updateRows_ids|].
  unfold dynamicSecretDAL.updateRows. apply Forall_fmap.
  eapply Forall_impl; [exact Hlt|]. intros x Hx. simpl.
  by destruct (dynamicSecretDAL.hasId i x).
Qed.

Lemma wf_delete (l : list TDynamicSecret) (n i : N) :
  NoDup (id <$> l) → Forall (λ x, (id x < n)%N) l →
  NoDup (id <$> dynamicSecretDAL.deleteRows i l)
  ∧ Forall (λ x, (id x < n)%N) (dynamicSecretDAL.deleteRows i l).
Proof.
  intros Hnd Hlt. unfold dynamicSecretDAL.deleteRows. split.
  - eapply sublist_NoDup; [exact Hnd|]. apply fmap_sublist, sublist_filter.
  - rewrite Forall_forall in Hlt. apply Forall_forall. intros x Hx.
    apply list_elem_of_filter in Hx as [_ Hx]. by apply Hlt.
Qed.

(** Every operation, whatever its outcome, takes a well-formed store to a
    well-formed store; the empty store is well formed. *)
Lemma operations_preserve_store_wf (d : Deps) (w : World) :
  store_wf w →
  (∀ dto, store_wf (dynamicSecretService.create d dto w).1)
  ∧ (∀ dto, store_wf (dynamicSecretService.updateBySlug d dto w).1)
  ∧ (∀ dto, store_wf (dynamicSecretService.deleteBySlug d dto w).1)
  ∧ (∀ dto, store_wf (dynamicSecretService.list d dto w).1).
Proof.
  intros [Hnd Hlt]. unfold store_wf.
  split; [|split; [|split]]; intros dto; run; repeat case_inner;
    first [ by split | by apply wf_insert | by apply wf_update | by apply wf_delete ].
Qed.

Lemma empty_store_wf : store_wf Fixture.emptyWorld.
Proof. split; simpl; [apply NoDup_nil_2 | apply Forall_nil_2]. Qed.

(** * Further properties of the service *)

(** ** Failure is without effect on the store *)



(** ** Listing *)

(** X2: [list] succeeds exactly when the actor holds Edit on the path and
    the folder resolves; its result is then every row of that folder in
    store order, the rows flagged as deleting included, and the only calls
    made are the permission lookup, the folder lookup and one
    [dynamicSecretDAL.find]: nothing is decrypted and the store is as it
    was. *)
Theorem list_succeeds_iff
    (d : Deps) (dto : ListDTO.t) (w w' : World) (res : list TDynamicSecret) :
  dynamicSecretService.list d dto w = (w', inr res)
  ↔ allowed d Edit (listCaller dto) = true
    ∧ ∃ folder,
        resolved d (listCaller dto) = Some folder
        ∧ res = List.filter (λ r, bool_decide (folderId r = folder_id folder)) (rows w)
        ∧ (∀ r, r ∈ res ↔ r ∈ rows w ∧ folderId r = folder_id folder)
        ∧ w' = after w [permissionCall (listCaller dto); folderCall (listCaller dto);
                        CallFind (folder_id folder)].
Proof.
  assert (Hfilter : ∀ fid,
    List.filter (dynamicSecretDAL.matches (Filter.mk None fid)) (rows w)
    = List.filter (λ r, bool_decide (folderId r = fid)) (rows w)).
  { intros fid. apply List.filter_ext. intros r.
    unfold dynamicSecretDAL.matches; simpl. apply andb_true_r. }
  assert (Helem : ∀ fid r,
    r ∈ List.filter (λ r, bool_decide (folderId r = fid)) (rows w)
    ↔ r ∈ rows w ∧ folderId r = fid).
  { intros fid r. rewrite !list_elem_of_In, filter_In, bool_decide_eq_true. done. }
  unfold allowed, resolved; simpl. split.
  - run.
    destruct (can _ _ _) eqn:Hcan; simpl; [|discriminate].
    destruct (findBySecretPath _ _ _ _) as [folder|] eqn:Hres; simpl; [|discriminate].
    intros [= <- <-]. split; [done|]. exists folder.
    rewrite Hfilter. split; [done|]. split; [done|]. split; [intros r; apply Helem|].
    unfold after; simpl. by rewrite <- !app_assoc.
  - intros (Hcan & folder & Hres & -> & _ & ->).
    run. rewrite Hcan; simpl. rewrite Hres; simpl. rewrite Hfilter.
    unfold after; simpl. by rewrite <- ?app_assoc.
Qed.

(** ** What [deleteBySlug] may call *)

(** X3: on every path [deleteBySlug] only looks things up, flags and prunes
    a config that has leases, or hard-deletes one that has none: it never
    hard-deletes a config with an outstanding lease, never signals the
    scheduler for a config without one, and never creates, validates,
    encrypts or decrypts. *)
Theorem deleteBySlug_call_discipline (d : Deps) (dto : DeleteDTO.t) (w : World) :
  ∃ evs,
    trace (dynamicSecretService.deleteBySlug d dto w).1 = (trace w ++ evs)%list
    ∧ Forall (deleteCallAllowed d) evs.
Proof.
  run. repeat case_inner; rewrite <- ?app_assoc; simpl;
    (eexists; split; [reflexivity|]); repeat constructor; simpl; try done.
  all: try match goal with
           | H : negb (bool_decide (length ?l = 0)) = _ |- _ =>
               rewrite nonempty_length_test in H;
               first [ apply negb_true_iff, bool_decide_eq_false in H
                     | apply negb_false_iff, bool_decide_eq_true in H ]
           end; try done.
  match goal with
  | H : List.find (dynamicSecretDAL.hasId _) _ = Some _ |- _ =>
      apply find_Some_elem in H as [_ H]; apply bool_decide_eq_true in H
  end.
  congruence.
Qed.

(** ** The operations past their guards *)

Lemma create_run (d : Deps) (dto : CreateDTO.t) (w : World) (folder : Folder)
    (p : TDynamicProviderFns) :
  allowed d Create (createCaller dto) = true →
  resolved d (createCaller dto) = Some folder →
  (∀ r, r ∈ rows w → ¬ usesSlug (folder_id folder) (CreateDTO.slug dto) r) →
  dynamicSecretProviders d !! ProviderSpec.type (CreateDTO.provider dto) = Some p →
  dynamicSecretService.create d dto w = createOutcome d dto w (folder_id folder) p.
Proof.
  intros Hcan Hres Hfree Hp.
  pose proof (proj2 (configOf_None w _ _) Hfree) as Hnone.
  unfold allowed, resolved, configOf, createOutcome, createPrecheck in *; simpl in *.
  run. rewrite Hcan; simpl. rewrite Hres; simpl. rewrite Hnone; simpl.
  rewrite Hp; simpl.
  destruct (validateProviderInputs p _) as [e|validated]; simpl.
  - unfold after; simpl. by rewrite <- !app_assoc.
  - replace (existsb _ (rows w)) with false
      by (symmetry;
          apply (no_clash w (createRecord dto (folder_id folder)
                   (infisicalSymmetricEncypt d (JSON_stringify d validated))));
          exact Hfree).
    simpl. by rewrite <- !app_assoc.
Qed.

Lemma updateBySlug_run (d : Deps) (dto : UpdateDTO.t) (w : World) (folder : Folder)
    (cfg : TDynamicSecret) :
  NoDup (id <$> rows w) →
  allowed d Edit (updateCaller dto) = true →
  resolved d (updateCaller dto) = Some folder →
  configOf w (folder_id folder) (UpdateDTO.slug dto) = Some cfg →
  renameFree w dto (folder_id folder) →
  dynamicSecretService.updateBySlug d dto w = updateOutcome d dto w (folder_id folder) cfg.
Proof.
  intros Hnd Hcan Hres Hcfg Hfree.
  destruct (configOf_elem _ _ _ _ Hcfg) as [Hin _].
  assert (Hrow : ∀ enc, dynamicSecretDAL.applyUpdate (updateRecord dto enc) cfg
                        = updatedRow dto enc cfg).
  { intros enc. unfold updatedRow, dynamicSecretDAL.applyUpdate, updateRecord; simpl.
    by destruct (UpdateDTO.newSlug dto), (UpdateDTO.defaultTTL dto). }
  unfold allowed, resolved, configOf, updateOutcome, updatePrefix, renameCheck in *;
    simpl in *.
  run. rewrite Hcan; simpl. rewrite Hres; simpl. rewrite Hcfg; simpl.
  assert (Hcheck : truthy (UpdateDTO.newSlug dto) = true →
    List.find (dynamicSecretDAL.matches (Filter.mk (UpdateDTO.newSlug dto) (folder_id folder)))
      (rows w) = None) by apply (rename_check_passes w dto _ Hfree).
  destruct (truthy (UpdateDTO.newSlug dto)); simpl; [rewrite Hcheck by done; simpl|].
  all: destruct (infisicalSymmetricDecrypt d _ _ _ _) as [e|plaintext]; simpl;
       [unfold after; simpl; by rewrite <- !app_assoc|].
  all: destruct (JSON_parse d plaintext) as [e|stored]; simpl;
       [unfold after; simpl; by rewrite <- !app_assoc|].
  all: destruct (dynamicSecretProviders d !! type cfg) as [p|]; simpl;
       [|unfold after; simpl; by rewrite <- !app_assoc].
  all: destruct (validateProviderInputs p _) as [e|updatedInput]; simpl;
       [unfold after; simpl; by rewrite <- !app_assoc|].
  all: rewrite (find_hasId _ _ Hnd Hin); simpl; rewrite <- !app_assoc; simpl;
       by rewrite <- Hrow.
Qed.

Lemma deleteBySlug_run (d : Deps) (dto : DeleteDTO.t) (w : World) (folder : Folder)
    (cfg : TDynamicSecret) :
  NoDup (id <$> rows w) →
  allowed d Edit (deleteCaller dto) = true →
  resolved d (deleteCaller dto) = Some folder →
  configOf w (folder_id folder) (DeleteDTO.slug dto) = Some cfg →
  dynamicSecretService.deleteBySlug d dto w = deleteOutcome d dto w (folder_id folder) cfg.
Proof.
  intros Hnd Hcan Hres Hcfg.
  destruct (configOf_elem _ _ _ _ Hcfg) as [Hin _].
  unfold allowed, resolved, configOf, deleteOutcome, deletePrefix in *; simpl in *.
  run. rewrite Hcan; simpl. rewrite Hres; simpl. rewrite Hcfg; simpl.
  rewrite nonempty_length_test.
  destruct (bool_decide (leaseFind d (id cfg) = [])); simpl;
    rewrite (find_hasId _ _ Hnd Hin); simpl; by rewrite <- !app_assoc.
Qed.


Lemma create_collides_run (d : Deps) (dto : CreateDTO.t) (w : World) (folder : Folder)
    (r : TDynamicSecret) :
  allowed d Create (createCaller dto) = true →
  resolved d (createCaller dto) = Some folder →
  r ∈ rows w → usesSlug (folder_id folder) (CreateDTO.slug dto) r →
  dynamicSecretService.create d dto w
  = (after w (createPrecheck dto (folder_id folder)), inl alreadyExists).
Proof.
  intros Hcan Hres Hr Hu.
  assert (Hsome : is_Some (configOf w (folder_id folder) (CreateDTO.slug dto))).
  { apply find_is_Some_iff. exists r. split; [done|]. by apply matches_usesSlug. }
  unfold allowed, resolved, configOf, createPrecheck in *; simpl in *.
  run. rewrite Hcan; simpl. rewrite Hres; simpl.
  rewrite bool_decide_eq_true_2 by done. simpl.
  unfold after; simpl. by rewrite <- !app_assoc.
Qed.

(** ** Which failure wins *)

(** X4: past its guards, [updateBySlug] fails in this order.  An
    undecryptable payload gives the codec's error as it is; a payload that
    decrypts but does not parse gives the parser's error as it is; only
    then does a config whose type has no registry entry give the runtime's
    [TypeError]; and only then is the provider asked, whose rejection is
    passed on as it is.  In the first three cases no provider is called,
    and in all four nothing is encrypted or written. *)
Theorem updateBySlug_failure_order
    (d : Deps) (dto : UpdateDTO.t) (w : World) (folder : Folder) (cfg : TDynamicSecret) :
  store_wf w →
  allowed d Edit (updateCaller dto) = true →
  resolved d (updateCaller dto) = Some folder →
  configOf w (folder_id folder) (UpdateDTO.slug dto) = Some cfg →
  renameFree w dto (folder_id folder) →
  let stop := after w (updatePrefix dto (folder_id folder) cfg) in
  let decrypted := infisicalSymmetricDecrypt d (keyEncoding cfg) (inputCiphertext cfg)
                     (inputTag cfg) (inputIV cfg) in
  (∀ e, decrypted = inl e →
        dynamicSecretService.updateBySlug d dto w = (stop, inl e))
  ∧ (∀ plaintext e, decrypted = inr plaintext → JSON_parse d plaintext = inl e →
        dynamicSecretService.updateBySlug d dto w = (stop, inl e))
  ∧ (∀ plaintext stored, decrypted = inr plaintext →
        JSON_parse d plaintext = inr stored →
        dynamicSecretProviders d !! type cfg = None →
        dynamicSecretService.updateBySlug d dto w = (stop, inl undefinedProvider))
  ∧ (∀ plaintext stored p e, decrypted = inr plaintext →
        JSON_parse d plaintext = inr stored →
        dynamicSecretProviders d !! type cfg = Some p →
        validateProviderInputs p (spread stored (default ∅ (UpdateDTO.inputs dto))) = inl e →
        dynamicSecretService.updateBySlug d dto w
        = (after w (updatePrefix dto (folder_id folder) cfg
                    ++ [CallValidateProviderInputs (type cfg)
                          (spread stored (default ∅ (UpdateDTO.inputs dto)))]),
           inl e)).
Proof.
  intros [Hnd _] Hcan Hres Hcfg Hfree stop decrypted.
  rewrite (updateBySlug_run d dto w folder cfg Hnd Hcan Hres Hcfg Hfree).
  unfold updateOutcome, stop, decrypted.
  split; [|split; [|split]].
  - intros e ->. done.
  - intros plaintext e -> ->. done.
  - intros plaintext stored -> -> ->. done.
  - intros plaintext stored p e -> -> -> ->. done.
Qed.

Lemma updateBySlug_failure_order_witness :
  dynamicSecretService.updateBySlug Fixture.deps
    (Fixture.updateDto "alice" "/f1" "db0" None None) Scenario.tamperedWorld
  = (after Scenario.tamperedWorld
       [CallGetProjectPermission "user" "alice" "p1";
        CallFindBySecretPath "p1" "dev" "/f1";
        CallFindOne (Filter.mk (Some "db0") "folder-1");
        CallDecrypt "enc:{host:x,port:5432}"],
     inl (mkErr DecryptionError "Unsupported state or unable to authenticate data")).
Proof.
  apply (proj1 (updateBySlug_failure_order Fixture.deps
                  (Fixture.updateDto "alice" "/f1" "db0" None None)
                  Scenario.tamperedWorld (mkFolder "folder-1") Scenario.tampered
                  ltac:(apply (bool_decide_unpack _); vm_compute; exact I)
                  eq_refl eq_refl eq_refl
                  ltac:(intros s Hs; discriminate Hs))).
  reflexivity.
Defined.

(** X5: when the provider rejects the input of a [create], its error is
    passed on as it is; the call to the provider is the last one made, so
    nothing is encrypted and nothing reaches the store. *)
Theorem create_rejected_input
    (d : Deps) (dto : CreateDTO.t) (w : World) (folder : Folder)
    (p : TDynamicProviderFns) (e : Err) :
  allowed d Create (createCaller dto) = true →
  resolved d (createCaller dto) = Some folder →
  (∀ r, r ∈ rows w → ¬ usesSlug (folder_id folder) (CreateDTO.slug dto) r) →
  dynamicSecretProviders d !! ProviderSpec.type (CreateDTO.provider dto) = Some p →
  validateProviderInputs p (ProviderSpec.inputs (CreateDTO.provider dto)) = inl e →
  dynamicSecretService.create d dto w
  = (after w (createPrecheck dto (folder_id folder)
              ++ [CallValidateProviderInputs
                    (ProviderSpec.type (CreateDTO.provider dto))
                    (ProviderSpec.inputs (CreateDTO.provider dto))]),
     inl e).
Proof.
  intros Hcan Hres Hfree Hp Hv.
  rewrite (create_run d dto w folder p Hcan Hres Hfree Hp).
  unfold createOutcome. by rewrite Hv.
Qed.

Lemma create_rejected_input_witness :
  dynamicSecretService.create Fixture.deps
    (Fixture.createDto "alice" "/f1" "db1" "postgres" Fixture.portOnly)
    Fixture.emptyWorld
  = (after Fixture.emptyWorld
       (createPrecheck (Fixture.createDto "alice" "/f1" "db1" "postgres" Fixture.portOnly)
          "folder-1"
        ++ [CallValidateProviderInputs "postgres" Fixture.portOnly]),
     inl (mkErr ValidationError "host is required")).
Proof.
  apply (create_rejected_input Fixture.deps
           (Fixture.createDto "alice" "/f1" "db1" "postgres" Fixture.portOnly)
           Fixture.emptyWorld (mkFolder "folder-1") Fixture.postgres).
  - reflexivity.
  - reflexivity.
  - intros r Hr. by apply elem_of_nil in Hr.
  - reflexivity.
  - reflexivity.
Defined.

(** ** Renaming: the two edges of the check *)

(** X6: a rename to the slug the config already has is refused as a
    collision.  The check looks the new slug up in the folder without
    setting the config itself apart, so the request stops there with
    "Provided dynamic secret already exist under the folder" and neither
    its inputs nor its TTLs are applied. *)
Theorem updateBySlug_same_slug_refused
    (d : Deps) (dto : UpdateDTO.t) (w : World) (folder : Folder) (cfg : TDynamicSecret) :
  allowed d Edit (updateCaller dto) = true →
  resolved d (updateCaller dto) = Some folder →
  configOf w (folder_id folder) (UpdateDTO.slug dto) = Some cfg →
  UpdateDTO.newSlug dto = Some (UpdateDTO.slug dto) →
  UpdateDTO.slug dto ≠ EmptyString →
  dynamicSecretService.updateBySlug d dto w
  = (after w
       [permissionCall (updateCaller dto); folderCall (updateCaller dto);
        CallFindOne (Filter.mk (Some (UpdateDTO.slug dto)) (folder_id folder));
        CallFindOne (Filter.mk (Some (UpdateDTO.slug dto)) (folder_id folder))],
     inl (mkErr BadRequestError
            "Provided dynamic secret already exist under the folder")).
Proof.
  intros Hcan Hres Hcfg Hnew Hne.
  unfold allowed, resolved, configOf in *; simpl in *.
  run. rewrite Hcan; simpl. rewrite Hres; simpl. rewrite Hcfg; simpl.
  rewrite Hnew; simpl. rewrite bool_decide_eq_false_2 by done. simpl.
  rewrite Hcfg; simpl. unfold after; simpl. by rewrite <- !app_assoc.
Qed.

Lemma updateBySlug_same_slug_refused_witness :
  dynamicSecretService.updateBySlug Fixture.deps
    (Fixture.updateDto "alice" "/f1" "db0" (Some "db0") (Some Fixture.portOnly))
    Fixture.world3
  = (after Fixture.world3
       [CallGetProjectPermission "user" "alice" "p1";
        CallFindBySecretPath "p1" "dev" "/f1";
        CallFindOne (Filter.mk (Some "db0") "folder-1");
        CallFindOne (Filter.mk (Some "db0") "folder-1")],
     inl (mkErr BadRequestError
            "Provided dynamic secret already exist under the folder")).
Proof.
  apply (updateBySlug_same_slug_refused Fixture.deps
           (Fixture.updateDto "alice" "/f1" "db0" (Some "db0") (Some Fixture.portOnly))
           Fixture.world3 (mkFolder "folder-1") (Fixture.row 0 "db0" false)).
  - reflexivity.
  - reflexivity.
  - reflexivity.
  - reflexivity.
  - discriminate.
Defined.

Lemma updateRows_keep i u l r :
  r ∈ l → id r ≠ i → r ∈ dynamicSecretDAL.updateRows i u l.
Proof.
  intros Hr Hi. unfold dynamicSecretDAL.updateRows.
  apply list_elem_of_fmap. exists r. split; [|done].
  unfold dynamicSecretDAL.hasId. by rewrite bool_decide_eq_false_2.
Qed.




(** ** One row per slug and folder *)

Lemma find_split {A} (p : A → bool) (l : list A) (x : A) :
  List.find p l = Some x →
  ∃ l1 l2, l = (l1 ++ x :: l2)%list ∧ (∀ y, y ∈ l1 → p y = false) ∧ p x = true.
Proof.
  induction l as [|a l IH]; [discriminate|]. simpl.
  destruct (p a) eqn:Hp.
  - intros [= ->]. exists [], l. split; [done|]. split; [|done].
    intros y Hy. by apply elem_of_nil in Hy.
  - intros H. destruct (IH H) as (l1 & l2 & -> & Hl1 & Hx).
    exists (a :: l1), l2. split; [done|]. split; [|done].
    intros y Hy. apply elem_of_cons in Hy as [->|Hy]; [done|by apply Hl1].
Qed.

Lemma find_first {A} (p : A → bool) (l1 l2 : list A) (x : A) :
  (∀ y, y ∈ l1 → p y = false) → p x = true →
  List.find p (l1 ++ x :: l2) = Some x.
Proof.
  intros Hl1 Hx. induction l1 as [|a l1 IH]; simpl; [by rewrite Hx|].
  rewrite (Hl1 a) by apply list_elem_of_here.
  apply IH. intros y Hy. apply Hl1. by apply list_elem_of_further.
Qed.

Lemma updateRows_untouched i u l :
  (∀ r, r ∈ l → id r ≠ i) → dynamicSecretDAL.updateRows i u l = l.
Proof.
  intros H. unfold dynamicSecretDAL.updateRows.
  rewrite <- (list_fmap_id l) at 2. apply list_fmap_ext. intros j r Hr. simpl.
  unfold dynamicSecretDAL.hasId. rewrite bool_decide_eq_false_2; [done|].
  apply H. by eapply list_elem_of_lookup_2.
Qed.

Lemma updateRows_split u l1 l2 x :
  NoDup (id <$> (l1 ++ x :: l2)%list) →
  dynamicSecretDAL.updateRows (id x) u (l1 ++ x :: l2)
  = (l1 ++ dynamicSecretDAL.applyUpdate u x :: l2)%list.
Proof.
  intros Hnd. rewrite fmap_app, fmap_cons in Hnd.
  apply NoDup_app in Hnd as (_ & Hl1 & Hnd). apply NoDup_cons in Hnd as [Hl2 _].
  unfold dynamicSecretDAL.updateRows at 1. rewrite fmap_app, fmap_cons.
  fold (dynamicSecretDAL.updateRows (id x) u l1).
  fold (dynamicSecretDAL.updateRows (id x) u l2).
  rewrite !updateRows_untouched.
  - unfold dynamicSecretDAL.hasId. by rewrite bool_decide_eq_true_2.
  - intros r Hr Heq. apply Hl2. rewrite <- Heq. by apply list_elem_of_fmap_2.
  - intros r Hr Heq. apply (Hl1 (id r)); [by apply list_elem_of_fmap_2|].
    rewrite Heq. apply list_elem_of_here.
Qed.

Lemma rekey_NoDup u l1 l2 x :
  NoDup (slugKey <$> (l1 ++ x :: l2)%list) →
  (slugKey (dynamicSecretDAL.applyUpdate u x) = slugKey x
   ∨ ∀ r, r ∈ (l1 ++ x :: l2)%list → slugKey r ≠ slugKey (dynamicSecretDAL.applyUpdate u x)) →
  NoDup (slugKey <$> (l1 ++ dynamicSecretDAL.applyUpdate u x :: l2)%list).
Proof.
  intros Hnd Hkey. rewrite fmap_app, fmap_cons in *.
  destruct Hkey as [->|Hfresh]; [done|].
  apply NoDup_app in Hnd as (H1 & H12 & Hnd). apply NoDup_cons in Hnd as [Hx H2].
  assert (Hnew : ∀ l : list TDynamicSecret,
            (∀ r, r ∈ l → r ∈ (l1 ++ x :: l2)%list) →
            slugKey (dynamicSecretDAL.applyUpdate u x) ∉ slugKey <$> l).
  { intros l Hsub Hin. apply list_elem_of_fmap in Hin as (r & Hr & Hrl).
    apply (Hfresh r); [by apply Hsub|done]. }
  apply NoDup_app. split; [done|]. split.
  - intros k Hk Hin. apply elem_of_cons in Hin as [->|Hin].
    + revert Hk. apply Hnew. intros r Hr. apply elem_of_app. by left.
    + apply (H12 k Hk). by apply list_elem_of_further.
  - apply NoDup_cons. split; [|done].
    apply Hnew. intros r Hr. apply elem_of_app. right. by apply list_elem_of_further.
Qed.

Lemma create_rows_effect (d : Deps) (dto : CreateDTO.t) (w : World) :
  rows (dynamicSecretService.create d dto w).1 = rows w
  ∨ ∃ folder enc,
      (∀ r, r ∈ rows w → ¬ usesSlug (folder_id folder) (CreateDTO.slug dto) r)
      ∧ rows (dynamicSecretService.create d dto w).1
        = (rows w ++ [createdRow (nextId w) dto (folder_id folder) enc])%list.
Proof.
  run.
  destruct (can _ _ _); simpl; [|by left].
  destruct (findBySecretPath _ _ _ _) as [folder|]; simpl; [|by left].
  destruct (List.find _ (rows w)) as [r|] eqn:Hfind; simpl; [by left|].
  destruct (dynamicSecretProviders d !! _) as [p|]; simpl; [|by left].
  destruct (validateProviderInputs p _) as [e|validated]; simpl; [by left|].
  destruct (existsb _ _); simpl; [by left|].
  right. exists folder, (infisicalSymmetricEncypt d (JSON_stringify d validated)).
  split; [|done]. by apply (configOf_None w (folder_id folder) (CreateDTO.slug dto)).
Qed.


Lemma renameFree_of_check (w : World) (dto : UpdateDTO.t) (fid : string) :
  (truthy (UpdateDTO.newSlug dto) = true →
   List.find (dynamicSecretDAL.matches (Filter.mk (UpdateDTO.newSlug dto) fid)) (rows w)
   = None) →
  renameFree w dto fid.
Proof.
  intros Hcheck s Hs Hne. apply (configOf_None w fid s).
  unfold configOf. rewrite <- Hs. apply Hcheck.
  unfold truthy. rewrite Hs. by rewrite bool_decide_eq_false_2.
Qed.

Lemma updateBySlug_rows_effect (d : Deps) (dto : UpdateDTO.t) (w : World) :
  rows (dynamicSecretService.updateBySlug d dto w).1 = rows w
  ∨ ∃ folder cfg enc,
      configOf w (folder_id folder) (UpdateDTO.slug dto) = Some cfg
      ∧ renameFree w dto (folder_id folder)
      ∧ rows (dynamicSecretService.updateBySlug d dto w).1
        = dynamicSecretDAL.updateRows (id cfg) (updateRecord dto enc) (rows w).
Proof.
  run.
  destruct (can _ _ _); simpl; [|by left].
  destruct (findBySecretPath _ _ _ _) as [folder|]; simpl; [|by left].
  destruct (List.find (dynamicSecretDAL.matches (Filter.mk (Some (UpdateDTO.slug dto)) _))
              (rows w)) as [cfg|] eqn:Hcfg; simpl; [|by left].
  assert (Hfree : (truthy (UpdateDTO.newSlug dto) = true →
            List.find (dynamicSecretDAL.matches
                         (Filter.mk (UpdateDTO.newSlug dto) (folder_id folder))) (rows w)
            = None) → renameFree w dto (folder_id folder))
    by apply renameFree_of_check.
  destruct (truthy (UpdateDTO.newSlug dto)); simpl.
  1: destruct (List.find (dynamicSecretDAL.matches (Filter.mk (UpdateDTO.newSlug dto) _))
                 (rows w)) eqn:Hnew; simpl; [by left|].
  all: destruct (infisicalSymmetricDecrypt d _ _ _ _) as [e|plaintext]; simpl; [by left|].
  all: destruct (JSON_parse d plaintext) as [e|stored]; simpl; [by left|].
  all: destruct (dynamicSecretProviders d !! type cfg) as [p|]; simpl; [|by left].
  all: destruct (validateProviderInputs p _) as [e|updatedInput]; simpl; [by left|].
  all: destruct (List.find (dynamicSecretDAL.hasId _) (rows w)); simpl; [|by left].
  all: right; exists folder, cfg,
         (infisicalSymmetricEncypt d (JSON_stringify d updatedInput));
       split; [done|]; split; [|done]; apply Hfree; done.
Qed.

Lemma deleteBySlug_rows_effect (d : Deps) (dto : DeleteDTO.t) (w : World) :
  rows (dynamicSecretService.deleteBySlug d dto w).1 = rows w
  ∨ ∃ folder cfg,
      configOf w (folder_id folder) (DeleteDTO.slug dto) = Some cfg
      ∧ (rows (dynamicSecretService.deleteBySlug d dto w).1
           = dynamicSecretDAL.updateRows (id cfg) flagDeleting (rows w)
         ∨ rows (dynamicSecretService.deleteBySlug d dto w).1
           = dynamicSecretDAL.deleteRows (id cfg) (rows w)).
Proof.
  run.
  destruct (can _ _ _); simpl; [|by left].
  destruct (findBySecretPath _ _ _ _) as [folder|]; simpl; [|by left].
  destruct (List.find _ (rows w)) as [cfg|] eqn:Hcfg; simpl; [|by left].
  destruct (negb _); simpl;
    (destruct (List.find (dynamicSecretDAL.hasId _) (rows w)); simpl; [|by left]);
    right; exists folder, cfg; (split; [done|]); [by left|by right].
Qed.

Lemma list_rows_effect (d : Deps) (dto : ListDTO.t) (w : World) :
  rows (dynamicSecretService.list d dto w).1 = rows w.
Proof. run. by repeat case_inner. Qed.

(** X8: the service keeps the store free of two rows with the same folder
    and slug, flagged as deleting or not.  [create], [deleteBySlug] and
    [list] always do, and so does every [updateBySlug] whose [newSlug] is
    not the empty string (the one value that is written without having
    been looked up). *)
Theorem slugs_stay_unique (d : Deps) (w : World) :
  store_wf w →
  slugs_unique w →
  (∀ dto, slugs_unique (dynamicSecretService.create d dto w).1)
  ∧ (∀ dto, UpdateDTO.newSlug dto ≠ Some EmptyString →
            slugs_unique (dynamicSecretService.updateBySlug d dto w).1)
  ∧ (∀ dto, slugs_unique (dynamicSecretService.deleteBySlug d dto w).1)
  ∧ (∀ dto, slugs_unique (dynamicSecretService.list d dto w).1).
Proof.
  intros [Hnd _] Huniq. unfold slugs_unique in *.
  split; [|split; [|split]]; intros dto.
  - destruct (create_rows_effect d dto w) as [->|(folder & enc & Hfree & ->)]; [done|].
    rewrite fmap_app. apply NoDup_app. split; [done|]. split; [|apply NoDup_singleton].
    intros k Hk Hin. apply list_elem_of_singleton in Hin. subst k.
    apply list_elem_of_fmap in Hk as (r & Hkey & Hr).
    apply (Hfree r Hr). unfold slugKey in Hkey; simpl in Hkey.
    injection Hkey as Hf Hs. by split.
  - intros Hnew.
    destruct (updateBySlug_rows_effect d dto w)
      as [->|(folder & cfg & enc & Hcfg & Hfree & ->)]; [done|].
    pose proof (configOf_elem _ _ _ _ Hcfg) as [_ [Hfid Hslug]].
    apply find_split in Hcfg as (l1 & l2 & Hrows & _ & _).
    rewrite Hrows in *. rewrite (updateRows_split _ _ _ _ Hnd).
    apply rekey_NoDup; [done|].
    unfold slugKey, dynamicSecretDAL.applyUpdate, updateRecord; simpl.
    destruct (UpdateDTO.newSlug dto) as [s|] eqn:Hs; simpl; [|left; by rewrite Hslug].
    right. intros r Hr [= Hf Hsl].
    apply (Hfree s Hs) with (r := r); [congruence|by rewrite Hrows|].
    split; [congruence|done].
  - destruct (deleteBySlug_rows_effect d dto w)
      as [->|(folder & cfg & Hcfg & [-> | ->])]; [done| |].
    + apply find_split in Hcfg as (l1 & l2 & Hrows & _ & _).
      rewrite Hrows in *. rewrite (updateRows_split _ _ _ _ Hnd).
      apply rekey_NoDup; [done|]. by left.
    + unfold dynamicSecretDAL.deleteRows.
      eapply sublist_NoDup; [exact Huniq|]. apply fmap_sublist, sublist_filter.
  - by rewrite list_rows_effect.
Qed.

Lemma slugs_stay_unique_witness :
  slugs_unique (dynamicSecretService.updateBySlug Fixture.deps
                  (Fixture.updateDto "alice" "/f1" "db0" (Some "db9") None)
                  Fixture.world3).1.
Proof.
  apply (proj1 (proj2 (slugs_stay_unique Fixture.deps Fixture.world3
           ltac:(apply (bool_decide_unpack _); vm_compute; exact I)
           ltac:(apply (bool_decide_unpack _); vm_compute; exact I)))).
  discriminate.
Defined.

(** ** Create, then look again *)

Lemma configOf_appended (w : World) (fid s : string) (l : list TDynamicSecret)
    (x : TDynamicSecret) :
  (∀ r, r ∈ l → ¬ usesSlug fid s r) → usesSlug fid s x →
  List.find (dynamicSecretDAL.matches (Filter.mk (Some s) fid)) (l ++ [x]) = Some x.
Proof.
  intros Hfree Hx. apply find_first.
  - intros y Hy. apply not_true_is_false. rewrite matches_usesSlug. by apply Hfree.
  - by apply matches_usesSlug.
Qed.

Lemma deleteRows_fresh (l : list TDynamicSecret) (x : TDynamicSecret) :
  (∀ r, r ∈ l → id r ≠ id x) →
  dynamicSecretDAL.deleteRows (id x) (l ++ [x]) = l.
Proof.
  intros Hfresh. unfold dynamicSecretDAL.deleteRows.
  rewrite filter_app, filter_cons_False, filter_nil, app_nil_r by (intros H; by apply H).
  induction l as [|a l IH]; [done|].
  rewrite filter_cons_True by (apply Hfresh, list_elem_of_here).
  f_equal. apply IH. intros r Hr. apply Hfresh. by apply list_elem_of_further.
Qed.



(** X10: after a successful [create], a second [create] with the same slug
    in the same folder is refused at the pre-check, whoever asks and
    whatever provider, inputs or TTLs the second request carries; the
    store keeps the one row. *)
Theorem create_twice_refused
    (d : Deps) (dto again : CreateDTO.t) (w : World) (folder : Folder)
    (p : TDynamicProviderFns) (validated : JsObject) :
  allowed d Create (createCaller dto) = true →
  resolved d (createCaller dto) = Some folder →
  (∀ r, r ∈ rows w → ¬ usesSlug (folder_id folder) (CreateDTO.slug dto) r) →
  dynamicSecretProviders d !! ProviderSpec.type (CreateDTO.provider dto) = Some p →
  validateProviderInputs p (ProviderSpec.inputs (CreateDTO.provider dto)) = inr validated →
  allowed d Create (createCaller again) = true →
  resolved d (createCaller again) = Some folder →
  CreateDTO.slug again = CreateDTO.slug dto →
  let w1 := (dynamicSecretService.create d dto w).1 in
  dynamicSecretService.create d again w1
  = (after w1 (createPrecheck again (folder_id folder)), inl alreadyExists).
Proof.
  intros Hcan Hres Hfree Hp Hv Hcan' Hres' Hslug w1.
  assert (Hw1 : ∃ created, created ∈ rows w1
                  ∧ usesSlug (folder_id folder) (CreateDTO.slug dto) created).
  { unfold w1. rewrite (create_run d dto w folder p Hcan Hres Hfree Hp).
    unfold createOutcome. rewrite Hv. simpl. eexists. split.
    - apply elem_of_app. right. apply list_elem_of_here.
    - by split. }
  destruct Hw1 as (created & Hin & Hu).
  apply (create_collides_run d again w1 folder created Hcan' Hres' Hin).
  by rewrite Hslug.
Qed.

Lemma create_twice_refused_witness :
  dynamicSecretService.create Fixture.deps
    (Fixture.createDto "alice" "/f1" "db7" "mysql" Fixture.portOnly)
    (dynamicSecretService.create Fixture.deps
       (Fixture.createDto "alice" "/f1" "db7" "postgres" Fixture.hostX)
       Fixture.world3).1
  = (after (dynamicSecretService.create Fixture.deps
              (Fixture.createDto "alice" "/f1" "db7" "postgres" Fixture.hostX)
              Fixture.world3).1
       (createPrecheck (Fixture.createDto "alice" "/f1" "db7" "mysql" Fixture.portOnly)
          "folder-1"),
     inl alreadyExists).
Proof.
  apply (create_twice_refused Fixture.deps
           (Fixture.createDto "alice" "/f1" "db7" "postgres" Fixture.hostX)
           (Fixture.createDto "alice" "/f1" "db7" "mysql" Fixture.portOnly)
           Fixture.world3 (mkFolder "folder-1") Fixture.postgres Fixture.hostX);
    try reflexivity.
  intros r Hr [_ Hs]. simpl in Hr.
  repeat (apply elem_of_cons in Hr as [->|Hr]; [discriminate Hs|]).
  by apply elem_of_nil in Hr.
Defined.

(** X11: a config that is created and then deleted before any lease is
    issued leaves no trace in the rows: [deleteBySlug] finds exactly the
    created row, returns it, and the rows are those from before the
    [create]. *)
Theorem create_then_delete_restores
    (d : Deps) (dto : CreateDTO.t) (ddto : DeleteDTO.t) (w : World) (folder : Folder)
    (p : TDynamicProviderFns) (validated : JsObject) :
  store_wf w →
  allowed d Create (createCaller dto) = true →
  resolved d (createCaller dto) = Some folder →
  (∀ r, r ∈ rows w → ¬ usesSlug (folder_id folder) (CreateDTO.slug dto) r) →
  dynamicSecretProviders d !! ProviderSpec.type (CreateDTO.provider dto) = Some p →
  validateProviderInputs p (ProviderSpec.inputs (CreateDTO.provider dto)) = inr validated →
  allowed d Edit (deleteCaller ddto) = true →
  resolved d (deleteCaller ddto) = Some folder →
  DeleteDTO.slug ddto = CreateDTO.slug dto →
  leaseFind d (nextId w) = [] →
  let w1 := (dynamicSecretService.create d dto w).1 in
  (dynamicSecretService.deleteBySlug d ddto w1).2 = (dynamicSecretService.create d dto w).2
  ∧ (∃ created, (dynamicSecretService.create d dto w).2 = inr created)
  ∧ rows (dynamicSecretService.deleteBySlug d ddto w1).1 = rows w.
Proof.
  intros [Hnd Hlt] Hcan Hres Hfree Hp Hv Hcan' Hres' Hslug Hleases w1.
  pose (created := createdRow (nextId w) dto (folder_id folder)
                     (infisicalSymmetricEncypt d (JSON_stringify d validated))).
  assert (Hcreate : dynamicSecretService.create d dto w
            = (mkWorld (rows w ++ [created]) (N.succ (nextId w))
                 (trace (dynamicSecretService.create d dto w).1), inr created)).
  { rewrite (create_run d dto w folder p Hcan Hres Hfree Hp).
    unfold createOutcome. by rewrite Hv. }
  assert (Hfresh : ∀ r, r ∈ rows w → id r ≠ id created).
  { intros r Hr. rewrite Forall_forall in Hlt. specialize (Hlt r Hr). simpl. lia. }
  assert (Hnd1 : NoDup (id <$> rows w1)).
  { unfold w1. rewrite Hcreate. simpl. rewrite fmap_app. apply NoDup_app.
    split; [done|]. split; [|apply NoDup_singleton].
    intros i Hi Hin. apply list_elem_of_singleton in Hin. subst i.
    apply list_elem_of_fmap in Hi as (r & Heq & Hr).
    apply (Hfresh r Hr). symmetry. exact Heq. }
  assert (Hcfg : configOf w1 (folder_id folder) (DeleteDTO.slug ddto) = Some created).
  { unfold configOf, w1. rewrite Hcreate. simpl. rewrite Hslug.
    apply (configOf_appended w); [done|by split]. }
  rewrite (deleteBySlug_run d ddto w1 folder created Hnd1 Hcan' Hres' Hcfg).
  unfold deleteOutcome. simpl. rewrite Hleases. simpl.
  split; [by rewrite Hcreate|]. split; [rewrite Hcreate; by eexists|].
  unfold w1. rewrite Hcreate. simpl. by apply (deleteRows_fresh (rows w) created).
Qed.

Lemma create_then_delete_restores_witness :
  rows (dynamicSecretService.deleteBySlug Fixture.deps
          (Fixture.deleteDto "alice" "/f1" "db7")
          (dynamicSecretService.create Fixture.deps
             (Fixture.createDto "alice" "/f1" "db7" "postgres" Fixture.hostX)
             Fixture.world3).1).1
  = rows Fixture.world3.
Proof.
  apply (create_then_delete_restores Fixture.deps
           (Fixture.createDto "alice" "/f1" "db7" "postgres" Fixture.hostX)
           (Fixture.deleteDto "alice" "/f1" "db7")
           Fixture.world3 (mkFolder "folder-1") Fixture.postgres Fixture.hostX);
    try reflexivity.
  - apply (bool_decide_unpack _). vm_compute. exact I.
  - intros r Hr [_ Hs]. simpl in Hr.
    repeat (apply elem_of_cons in Hr as [->|Hr]; [discriminate Hs|]).
    by apply elem_of_nil in Hr.
Defined.

(** ** Deleting again, and looking up after a rename *)

(** X12: while a lease is outstanding, asking again for the deletion of a
    config already flagged is harmless: the flagged row is found like any
    other, the rows do not change, the same flagged config is returned,
    and the scheduler is signaled once more. *)
Theorem deleteBySlug_again
    (d : Deps) (dto : DeleteDTO.t) (w : World) (folder : Folder) (cfg : TDynamicSecret) :
  store_wf w →
  allowed d Edit (deleteCaller dto) = true →
  resolved d (deleteCaller dto) = Some folder →
  configOf w (folder_id folder) (DeleteDTO.slug dto) = Some cfg →
  leaseFind d (id cfg) ≠ [] →
  let w1 := (dynamicSecretService.deleteBySlug d dto w).1 in
  dynamicSecretService.deleteBySlug d dto w1
  = (after w1 (deletePrefix dto (folder_id folder) cfg
               ++ [CallUpdateById (id cfg) flagDeleting; CallPruneDynamicSecret (id cfg)]),
     inr (flagged cfg)).
Proof.
  intros [Hnd _] Hcan Hres Hcfg Hleases w1.
  pose proof (configOf_elem _ _ _ _ Hcfg) as [_ Hu].
  pose proof Hcfg as Hsplit.
  apply find_split in Hsplit as (l1 & l2 & Hrows & Hl1 & _).
  assert (Hw1 : rows w1 = (l1 ++ flagged cfg :: l2)%list ∧ nextId w1 = nextId w).
  { unfold w1. rewrite (deleteBySlug_run d dto w folder cfg Hnd Hcan Hres Hcfg).
    unfold deleteOutcome. rewrite bool_decide_eq_false_2 by done. simpl.
    split; [|done]. rewrite Hrows in *. by rewrite (updateRows_split _ _ _ _ Hnd). }
  destruct Hw1 as [Hrows1 Hnext1].
  assert (Hnd1 : NoDup (id <$> rows w1)).
  { rewrite Hrows1. rewrite Hrows in Hnd. by rewrite fmap_app, fmap_cons in *. }
  assert (Hcfg1 : configOf w1 (folder_id folder) (DeleteDTO.slug dto) = Some (flagged cfg)).
  { unfold configOf. rewrite Hrows1. apply find_first; [done|].
    by apply matches_usesSlug. }
  assert (Hidem : dynamicSecretDAL.updateRows (id cfg) flagDeleting (rows w1) = rows w1).
  { rewrite Hrows1 in *.
    exact (updateRows_split flagDeleting l1 l2 (flagged cfg) Hnd1). }
  rewrite (deleteBySlug_run d dto w1 folder (flagged cfg) Hnd1 Hcan Hres Hcfg1).
  unfold deleteOutcome.
  change (id (flagged cfg)) with (id cfg).
  rewrite bool_decide_eq_false_2 by done. rewrite Hidem. reflexivity.
Qed.

Lemma deleteBySlug_again_witness :
  rows (dynamicSecretService.deleteBySlug Fixture.deps
          (Fixture.deleteDto "alice" "/f1" "db1")
          (dynamicSecretService.deleteBySlug Fixture.deps
             (Fixture.deleteDto "alice" "/f1" "db1") Fixture.world3).1).1
  = rows (dynamicSecretService.deleteBySlug Fixture.deps
            (Fixture.deleteDto "alice" "/f1" "db1") Fixture.world3).1.
Proof.
  rewrite (deleteBySlug_again Fixture.deps (Fixture.deleteDto "alice" "/f1" "db1")
             Fixture.world3 (mkFolder "folder-1") (Fixture.row 1 "db1" false)
             ltac:(apply (bool_decide_unpack _); vm_compute; exact I)
             eq_refl eq_refl eq_refl ltac:(discriminate)).
  reflexivity.
Defined.

Lemma success_passed_rename_check (d : Deps) (dto : UpdateDTO.t) (w : World)
    (folder : Folder) (cfg row : TDynamicSecret) :
  allowed d Edit (updateCaller dto) = true →
  resolved d (updateCaller dto) = Some folder →
  configOf w (folder_id folder) (UpdateDTO.slug dto) = Some cfg →
  (dynamicSecretService.updateBySlug d dto w).2 = inr row →
  renameFree w dto (folder_id folder).
Proof.
  intros Hcan Hres Hcfg Hok. apply renameFree_of_check. intros Ht.
  destruct (List.find (dynamicSecretDAL.matches
              (Filter.mk (UpdateDTO.newSlug dto) (folder_id folder))) (rows w))
    as [r|] eqn:Hn; [|done].
  exfalso. revert Hok. unfold allowed, resolved, configOf in *; simpl in *.
  run. rewrite Hcan; simpl. rewrite Hres; simpl. rewrite Hcfg; simpl.
  rewrite Ht; simpl. rewrite Hn; simpl. discriminate.
Qed.

(** X13: after a successful [updateBySlug] whose [newSlug] is not the empty
    string, the config answers to its resolved slug (the new one if given,
    else the old one): a lookup in the folder returns the updated row,
    which still has the id it had.  If the slug was changed and slugs were
    unique in the folder, nothing answers to the old slug any more. *)
Theorem updateBySlug_then_lookup
    (d : Deps) (dto : UpdateDTO.t) (w : World) (folder : Folder)
    (cfg row : TDynamicSecret) :
  store_wf w →
  allowed d Edit (updateCaller dto) = true →
  resolved d (updateCaller dto) = Some folder →
  configOf w (folder_id folder) (UpdateDTO.slug dto) = Some cfg →
  UpdateDTO.newSlug dto ≠ Some EmptyString →
  (dynamicSecretService.updateBySlug d dto w).2 = inr row →
  let w' := (dynamicSecretService.updateBySlug d dto w).1 in
  configOf w' (folder_id folder)
    (default (UpdateDTO.slug dto) (UpdateDTO.newSlug dto)) = Some row
  ∧ id row = id cfg
  ∧ (∀ s, UpdateDTO.newSlug dto = Some s → s ≠ UpdateDTO.slug dto →
          slugs_unique w → configOf w' (folder_id folder) (UpdateDTO.slug dto) = None).
Proof.
  intros [Hnd _] Hcan Hres Hcfg Hnew Hok w'.
  pose proof (configOf_elem _ _ _ _ Hcfg) as [_ [Hfid Hslug]].
  pose proof (success_passed_rename_check d dto w folder cfg row Hcan Hres Hcfg Hok)
    as Hfree.
  pose proof Hcfg as Hsplit.
  apply find_split in Hsplit as (l1 & l2 & Hrows & Hl1 & _).
  revert Hok. unfold w'.
  rewrite (updateBySlug_run d dto w folder cfg Hnd Hcan Hres Hcfg Hfree).
  unfold updateOutcome.
  destruct (infisicalSymmetricDecrypt d _ _ _ _) as [e|plaintext]; simpl; [discriminate|].
  destruct (JSON_parse d plaintext) as [e|stored]; simpl; [discriminate|].
  destruct (dynamicSecretProviders d !! type cfg) as [p|]; simpl; [|discriminate].
  destruct (validateProviderInputs p _) as [e|updatedInput]; simpl; [discriminate|].
  intros [= <-].
  set (enc := infisicalSymmetricEncypt d (JSON_stringify d updatedInput)).
  assert (Hrow : dynamicSecretDAL.applyUpdate (updateRecord dto enc) cfg
                 = updatedRow dto enc cfg).
  { unfold updatedRow, dynamicSecretDAL.applyUpdate, updateRecord; simpl.
    by destruct (UpdateDTO.newSlug dto), (UpdateDTO.defaultTTL dto). }
  unfold configOf; simpl. rewrite Hrows in Hnd |- *.
  rewrite (updateRows_split _ _ _ _ Hnd), Hrow.
  split; [|split; [done|]].
  - apply find_first.
    + intros y Hy. destruct (UpdateDTO.newSlug dto) as [s|] eqn:Hs; simpl;
        [|by apply Hl1].
      apply not_true_is_false. rewrite matches_usesSlug.
      apply (Hfree s Hs); [congruence|].
      rewrite Hrows. apply elem_of_app. by left.
    + apply matches_usesSlug. split; simpl; [done|].
      by destruct (UpdateDTO.newSlug dto).
  - intros s Hs Hne Huniq. apply find_None_iff. intros y Hy.
    apply not_true_is_false. rewrite matches_usesSlug. intros [Hyf Hys].
    unfold slugs_unique in Huniq. rewrite Hrows, fmap_app, fmap_cons in Huniq.
    apply NoDup_app in Huniq as (_ & H12 & Huniq).
    apply NoDup_cons in Huniq as [H2 _].
    apply elem_of_app in Hy as [Hy|Hy].
    + apply (H12 (slugKey y)); [by apply list_elem_of_fmap_2|].
      replace (slugKey y) with (slugKey cfg) by (unfold slugKey; congruence).
      apply list_elem_of_here.
    + apply elem_of_cons in Hy as [->|Hy].
      * simpl in Hys. rewrite Hs in Hys. by apply Hne.
      * apply H2. replace (slugKey cfg) with (slugKey y)
          by (unfold slugKey; congruence).
        by apply list_elem_of_fmap_2.
Qed.

Lemma updateBySlug_then_lookup_witness :
  configOf (dynamicSecretService.updateBySlug Fixture.deps
              (Fixture.updateDto "alice" "/f1" "db0" (Some "db9") None)
              Fixture.world3).1 "folder-1" "db0" = None.
Proof.
  apply (proj2 (proj2 (updateBySlug_then_lookup Fixture.deps
           (Fixture.updateDto "alice" "/f1" "db0" (Some "db9") None)
           Fixture.world3 (mkFolder "folder-1") (Fixture.row 0 "db0" false)
           (updatedRow (Fixture.updateDto "alice" "/f1" "db0" (Some "db9") None)
              (Fixture.toyEncrypt "{host:x,port:5432}") (Fixture.row 0 "db0" false))
           ltac:(apply (bool_decide_unpack _); vm_compute; exact I)
           eq_refl eq_refl eq_refl ltac:(discriminate) eq_refl)) "db9").
  - reflexivity.
  - discriminate.
  - apply (bool_decide_unpack _). vm_compute. exact I.
Defined.

(** ** What was created is what gets merged *)

(** X14: if the codec gives back the document it encrypted and the parser
    gives back the object that was serialised, then an [updateBySlug] that
    follows a successful [create] re-validates, with the provider the
    config was created for, exactly the input that provider accepted at
    creation merged with the patch; it fails with the provider's error or
    returns the created row with the new payload. *)
Theorem create_then_update_round_trip
    (d : Deps) (dto : CreateDTO.t) (udto : UpdateDTO.t) (w : World) (folder : Folder)
    (p : TDynamicProviderFns) (validated : JsObject) :
  store_wf w →
  allowed d Create (createCaller dto) = true →
  resolved d (createCaller dto) = Some folder →
  (∀ r, r ∈ rows w → ¬ usesSlug (folder_id folder) (CreateDTO.slug dto) r) →
  dynamicSecretProviders d !! ProviderSpec.type (CreateDTO.provider dto) = Some p →
  validateProviderInputs p (ProviderSpec.inputs (CreateDTO.provider dto)) = inr validated →
  let enc := infisicalSymmetricEncypt d (JSON_stringify d validated) in
  let created := createdRow (nextId w) dto (folder_id folder) enc in
  let w1 := (dynamicSecretService.create d dto w).1 in
  infisicalSymmetricDecrypt d (Enc.encoding enc) (Enc.ciphertext enc) (Enc.tag enc)
    (Enc.iv enc) = inr (JSON_stringify d validated) →
  JSON_parse d (JSON_stringify d validated) = inr validated →
  allowed d Edit (updateCaller udto) = true →
  resolved d (updateCaller udto) = Some folder →
  UpdateDTO.slug udto = CreateDTO.slug dto →
  renameFree w1 udto (folder_id folder) →
  let merged := spread validated (default ∅ (UpdateDTO.inputs udto)) in
  (dynamicSecretService.updateBySlug d udto w1).2
  = match validateProviderInputs p merged with
    | inl e => inl e
    | inr updatedInput =>
        inr (updatedRow udto
               (infisicalSymmetricEncypt d (JSON_stringify d updatedInput)) created)
    end.
Proof.
  intros [Hnd Hlt] Hcan Hres Hfree Hp Hv enc created w1 Hdec Hparse Hcan' Hres' Hslug
    Hrename merged.
  assert (Hcreate : rows w1 = (rows w ++ [created])%list).
  { unfold w1. rewrite (create_run d dto w folder p Hcan Hres Hfree Hp).
    unfold createOutcome. by rewrite Hv. }
  assert (Hnd1 : NoDup (id <$> rows w1)).
  { rewrite Hcreate, fmap_app. apply NoDup_app.
    split; [done|]. split; [|apply NoDup_singleton].
    intros i Hi Hin. apply list_elem_of_singleton in Hin. subst i.
    apply list_elem_of_fmap in Hi as (r & Heq & Hr).
    rewrite Forall_forall in Hlt. specialize (Hlt r Hr). simpl in Heq. lia. }
  assert (Hcfg : configOf w1 (folder_id folder) (UpdateDTO.slug udto) = Some created).
  { unfold configOf. rewrite Hcreate, Hslug.
    apply (configOf_appended w); [done|by split]. }
  rewrite (updateBySlug_run d udto w1 folder created Hnd1 Hcan' Hres' Hcfg Hrename).
  unfold updateOutcome.
  change (keyEncoding created) with (Enc.encoding enc).
  change (inputCiphertext created) with (Enc.ciphertext enc).
  change (inputTag created) with (Enc.tag enc).
  change (inputIV created) with (Enc.iv enc).
  change (type created) with (ProviderSpec.type (CreateDTO.provider dto)).
  rewrite Hdec, Hparse, Hp. fold merged.
  by destruct (validateProviderInputs p merged).
Qed.

Lemma create_then_update_round_trip_witness :
  (dynamicSecretService.updateBySlug Fixture.deps
     (Fixture.updateDto "alice" "/f1" "db7" None (Some Fixture.portOnly))
     (dynamicSecretService.create Fixture.deps
        (Fixture.createDto "alice" "/f1" "db7" "postgres" Fixture.hostX)
        Fixture.world3).1).2
  = match validateProviderInputs Fixture.postgres
            (spread Fixture.hostX (default ∅ (Some Fixture.portOnly))) with
    | inl e => inl e
    | inr updatedInput =>
        inr (updatedRow
               (Fixture.updateDto "alice" "/f1" "db7" None (Some Fixture.portOnly))
               (infisicalSymmetricEncypt Fixture.deps
                  (JSON_stringify Fixture.deps updatedInput))
               (createdRow 3
                  (Fixture.createDto "alice" "/f1" "db7" "postgres" Fixture.hostX)
                  "folder-1" (Fixture.toyEncrypt "{host:x,port:5432}")))
    end.
Proof.
  apply (create_then_update_round_trip Fixture.deps
           (Fixture.createDto "alice" "/f1" "db7" "postgres" Fixture.hostX)
           (Fixture.updateDto "alice" "/f1" "db7" None (Some Fixture.portOnly))
           Fixture.world3 (mkFolder "folder-1") Fixture.postgres Fixture.hostX);
    try reflexivity.
  - apply (bool_decide_unpack _). vm_compute. exact I.
  - intros r Hr [_ Hs]. simpl in Hr.
    repeat (apply elem_of_cons in Hr as [->|Hr]; [discriminate Hs|]).
    by apply elem_of_nil in Hr.
  - intros s Hs. discriminate Hs.
Defined.

(** ** At most one row is touched *)

(** X15: no operation changes the flag or anything else of a row it was not
    asked about.  [create] keeps every row as it is; [updateBySlug] and
    [deleteBySlug] keep every row except possibly those of one id; and
    [updateBySlug] leaves the [isDeleting] flag of every row, its target
    included, as it was: it neither revives a config being deleted nor
    flags one. *)
Theorem operations_touch_one_row (d : Deps) (w : World) :
  (∀ dto r, r ∈ rows w → r ∈ rows (dynamicSecretService.create d dto w).1)
  ∧ (∀ dto, ∃ i, ∀ r, r ∈ rows w → id r ≠ i →
        r ∈ rows (dynamicSecretService.updateBySlug d dto w).1)
  ∧ (∀ dto, ∃ i, ∀ r, r ∈ rows w → id r ≠ i →
        r ∈ rows (dynamicSecretService.deleteBySlug d dto w).1)
  ∧ (∀ dto, isDeleting <$> rows (dynamicSecretService.updateBySlug d dto w).1
            = isDeleting <$> rows w).
Proof.
  split; [|split; [|split]]; intros dto.
  - intros r Hr.
    destruct (create_rows_effect d dto w) as [->|(folder & enc & _ & ->)]; [done|].
    apply elem_of_app. by left.
  - destruct (updateBySlug_rows_effect d dto w)
      as [->|(folder & cfg & enc & _ & _ & ->)]; [by exists 0%N|].
    exists (id cfg). intros r Hr Hne. by apply updateRows_keep.
  - destruct (deleteBySlug_rows_effect d dto w)
      as [->|(folder & cfg & _ & [-> | ->])]; [by exists 0%N| |];
      exists (id cfg); intros r Hr Hne.
    + by apply updateRows_keep.
    + by apply deleteRows_elem.
  - destruct (updateBySlug_rows_effect d dto w)
      as [->|(folder & cfg & enc & _ & _ & ->)]; [done|].
    unfold dynamicSecretDAL.updateRows. rewrite <- list_fmap_compose.
    apply list_fmap_ext. intros j r _. simpl.
    by destruct (dynamicSecretDAL.hasId (id cfg) r).
Qed.

Lemma operations_touch_one_row_witness :
  Fixture.row 1 "db1" false
    ∈ rows (dynamicSecretService.create Fixture.deps
              (Fixture.createDto "alice" "/f1" "db7" "postgres" Fixture.hostX)
              Fixture.world3).1.
Proof.
  apply (proj1 (operations_touch_one_row Fixture.deps Fixture.world3)).
  simpl. apply list_elem_of_further, list_elem_of_here.
Defined.

Lemma list_succeeds_iff_witness :
  dynamicSecretService.list Fixture.deps (Fixture.listDto "alice" "/f1") Fixture.world3
  = (after Fixture.world3
       [CallGetProjectPermission "user" "alice" "p1";
        CallFindBySecretPath "p1" "dev" "/f1";
        CallFind "folder-1"],
     inr [Fixture.row 0 "db0" false; Fixture.row 1 "db1" false; Fixture.row 2 "old" true]).
Proof.
  apply list_succeeds_iff. split; [reflexivity|].
  exists (mkFolder "folder-1"). split; [reflexivity|]. split; [reflexivity|].
  split; [|reflexivity].
  intros r. simpl. split.
  - intros Hr. split; [done|].
    repeat (apply elem_of_cons in Hr as [->|Hr]; [reflexivity|]).
    by apply elem_of_nil in Hr.
  - by intros [Hr _].
Defined.

(** ** When a slug becomes free again *)

(** X16: where slugs are unique in the folder, deleting a config frees its
    slug only if the row goes.  After a [deleteBySlug] of a config with an
    outstanding lease the flagged row still holds the slug, so a [create]
    with that slug is refused at the pre-check; after a [deleteBySlug] of a
    config without leases no row of the folder has the slug. *)
Theorem delete_then_create
    (d : Deps) (dto : DeleteDTO.t) (cdto : CreateDTO.t) (w : World) (folder : Folder)
    (cfg : TDynamicSecret) :
  store_wf w →
  slugs_unique w →
  allowed d Edit (deleteCaller dto) = true →
  resolved d (deleteCaller dto) = Some folder →
  configOf w (folder_id folder) (DeleteDTO.slug dto) = Some cfg →
  allowed d Create (createCaller cdto) = true →
  resolved d (createCaller cdto) = Some folder →
  CreateDTO.slug cdto = DeleteDTO.slug dto →
  let w1 := (dynamicSecretService.deleteBySlug d dto w).1 in
  (leaseFind d (id cfg) ≠ [] →
     dynamicSecretService.create d cdto w1
     = (after w1 (createPrecheck cdto (folder_id folder)), inl alreadyExists))
  ∧ (leaseFind d (id cfg) = [] →
     ∀ r, r ∈ rows w1 → ¬ usesSlug (folder_id folder) (CreateDTO.slug cdto) r).
Proof.
  intros [Hnd _] Huniq Hcan Hres Hcfg Hcan' Hres' Hslug w1.
  pose proof (configOf_elem _ _ _ _ Hcfg) as [Hin [Hfid Hs]].
  unfold w1. rewrite (deleteBySlug_run d dto w folder cfg Hnd Hcan Hres Hcfg).
  unfold deleteOutcome. split; intros Hleases.
  - rewrite bool_decide_eq_false_2 by done.
    apply (create_collides_run d cdto _ folder (flagged cfg) Hcan' Hres').
    + simpl. by apply (updateRows_elem (id cfg) flagDeleting).
    + rewrite Hslug. by split.
  - rewrite bool_decide_eq_true_2 by done. simpl.
    intros r Hr [Hrf Hrs]. apply deleteRows_elem in Hr as [Hr Hid].
    apply Hid. f_equal.
    apply list_elem_of_lookup in Hr as [i Hi].
    apply list_elem_of_lookup in Hin as [j Hj].
    assert (i = j) as ->; [|congruence].
    apply (NoDup_lookup _ i j (slugKey cfg) Huniq).
    + rewrite list_lookup_fmap, Hi. simpl. unfold slugKey. congruence.
    + by rewrite list_lookup_fmap, Hj.
Qed.

Lemma delete_then_create_witness :
  dynamicSecretService.create Fixture.deps
    (Fixture.createDto "alice" "/f1" "db1" "postgres" Fixture.hostX)
    (dynamicSecretService.deleteBySlug Fixture.deps
       (Fixture.deleteDto "alice" "/f1" "db1") Fixture.world3).1
  = (after (dynamicSecretService.deleteBySlug Fixture.deps
              (Fixture.deleteDto "alice" "/f1" "db1") Fixture.world3).1
       (createPrecheck (Fixture.createDto "alice" "/f1" "db1" "postgres" Fixture.hostX)
          "folder-1"),
     inl alreadyExists).
Proof.
  apply (proj1 (delete_then_create Fixture.deps
                  (Fixture.deleteDto "alice" "/f1" "db1")
                  (Fixture.createDto "alice" "/f1" "db1" "postgres" Fixture.hostX)
                  Fixture.world3 (mkFolder "folder-1") (Fixture.row 1 "db1" false)
                  ltac:(apply (bool_decide_unpack _); vm_compute; exact I)
                  ltac:(apply (bool_decide_unpack _); vm_compute; exact I)
                  eq_refl eq_refl eq_refl eq_refl eq_refl eq_refl)).
  discriminate.
Defined.
